(** * reportserver: the identity and authentication module ([modules/auth.js])

    A shallow embedding of [modules/auth.js]: the identity list, the
    validation pipeline, the identity operations, token issuance and
    verification, the authorization middleware and the HTTP endpoint
    handlers, followed by the properties proved about them.

    Conventions of the embedding.
    - A request body is a parsed JSON document ([json]); a property that is
      absent reads as [None] (JavaScript's [undefined]).  Numbers are the
      integer-valued ones.
    - Strings are byte strings.
    - The module-level [identities] array, the uuid generator and the wall
      clock form the [world] that every operation threads; an operation is a
      function [world -> outcome * world], where the outcome is a returned
      value or a thrown exception.
    - The [jsonwebtoken] library and the password provider module are not
      part of [auth.js]; the former is an interface with its laws
      ([JwtLib]), the latter a parameter of the development. *)

From Stdlib Require Import ZArith String Ascii List Bool Lia DecimalString.
From stdpp Require Import base countable strings.
Import ListNotations.

Local Open Scope string_scope.
Local Open Scope Z_scope.

(** ** JSON values and the JavaScript operations applied to them *)

Set Warnings "-register-all".

Inductive json : Type :=
| JNull
| JBool (b : bool)
| JNum (z : Z)
| JStr (s : string)
| JArr (elems : list json)
| JObj (members : list (string * json)).

(** Induction principle that reaches through the two nested lists. *)
Section json_induction.
Variable P : json -> Prop.
Hypothesis Hnull : P JNull.
Hypothesis Hbool : forall b, P (JBool b).
Hypothesis Hnum : forall z, P (JNum z).
Hypothesis Hstr : forall s, P (JStr s).
Hypothesis Harr : forall l, Forall P l -> P (JArr l).
Hypothesis Hobj : forall m, Forall (fun kv => P (snd kv)) m -> P (JObj m).

Fixpoint json_nested_ind (j : json) : P j :=
  match j with
  | JNull => Hnull
  | JBool b => Hbool b
  | JNum z => Hnum z
  | JStr s => Hstr s
  | JArr l =>
      Harr l ((fix go (l : list json) : Forall P l :=
                 match l with
                 | [] => List.Forall_nil P
                 | x :: r => @List.Forall_cons _ P x r (json_nested_ind x) (go r)
                 end) l)
  | JObj m =>
      Hobj m ((fix go (m : list (string * json))
                : Forall (fun kv => P (snd kv)) m :=
                 match m with
                 | [] => List.Forall_nil _
                 | kv :: r => @List.Forall_cons _ _ kv r (json_nested_ind (snd kv)) (go r)
                 end) m)
  end.
End json_induction.

(** ToBoolean: [if (v)], [!v]. *)
Definition truthy (v : option json) : bool :=
  match v with
  | None => false
  | Some JNull => false
  | Some (JBool b) => b
  | Some (JNum z) => negb (z =? 0)
  | Some (JStr s) => negb (String.eqb s "")
  | Some (JArr _) => true
  | Some (JObj _) => true
  end.

Definition string_of_Z (z : Z) : string := NilZero.string_of_int (Z.to_int z).
Definition string_of_nat (n : nat) : string := NilZero.string_of_uint (Nat.to_uint n).

(** ToString, as used by template literals and by property keys.  Inside
    [Array.prototype.join] a [null] element prints as the empty string. *)
Fixpoint to_string (j : json) : string :=
  match j with
  | JNull => "null"
  | JBool true => "true"
  | JBool false => "false"
  | JNum z => string_of_Z z
  | JStr s => s
  | JArr l =>
      String.concat ","
        (List.map (fun e => match e with JNull => "" | _ => to_string e end) l)
  | JObj _ => "[object Object]"
  end.

Definition property_key (k : option json) : string :=
  match k with
  | None => "undefined"
  | Some j => to_string j
  end.

Fixpoint assoc (k : string) (m : list (string * json)) : option json :=
  match m with
  | [] => None
  | (k', v) :: r => if String.eqb k k' then Some v else assoc k r
  end.

(** ** Exceptions, outcomes and the world *)

Inductive exn : Type :=
| TypeError (msg : string)
| ReferenceError (msg : string)
| ProviderError (msg : string)
| JsonWebTokenError (msg : string).

Inductive outcome (A : Type) : Type :=
| Ret (a : A)
| Throw (e : exn).
Arguments Ret {A} a.
Arguments Throw {A} e.

(** [v.k] for the property names the module reads ([name], [auth],
    [functions], [type]): reading a property of [undefined] or [null]
    throws, an object yields its own property, every other value has none. *)
Definition member (v : option json) (k : string) : outcome (option json) :=
  match v with
  | None => Throw (TypeError ("Cannot read properties of undefined (reading '" ++ k ++ "')"))
  | Some JNull => Throw (TypeError ("Cannot read properties of null (reading '" ++ k ++ "')"))
  | Some (JObj m) => Ret (assoc k m)
  | Some _ => Ret None
  end.

(** *** Authentication providers (the plugin contract) *)

(** What a provider function returns: [{state, reason?, cleanRecord?,
    commitRecord?}]. *)
Record presult : Type := mkPresult {
  pr_state : string;
  pr_reason : option string;
  pr_cleanRecord : option json;
  pr_commitRecord : option json
}.

(** The object as the JSON document it is. *)
Definition presult_to_json (r : presult) : json :=
  JObj ([("state", JStr (pr_state r))]
          ++ (match pr_reason r with Some x => [("reason", JStr x)] | None => [] end)
          ++ (match pr_cleanRecord r with Some x => [("cleanRecord", x)] | None => [] end)
          ++ (match pr_commitRecord r with Some x => [("commitRecord", x)] | None => [] end)).

Module Provider.
(** A provider module; a method that the module does not export is
    [None]. *)
Record t : Type := mk {
  validate : option (json -> outcome presult);
  commit : option (option json -> outcome presult);
  authenticate : option (option json -> json -> outcome presult)
}.
(** A value found on the prototype chain of the [authTypes] object: it is
    truthy and has none of the three methods. *)
Definition inherited : t := mk None None None.
End Provider.

(** *** Identity records *)

Module Identity.
Record t : Type := mk {
  id : option string;
  name : string;
  auth : option json;
  functions : option json
}.
End Identity.

Record world : Type := mkWorld {
  identities : list Identity.t;
  uuids_drawn : nat;
  clock : Z          (* milliseconds since the epoch *)
}.

(** [var identities = [ {name: 'admin', ...} ]] *)
Definition initial_identities : list Identity.t :=
  [ Identity.mk None "admin"
      (Some (JObj [ ("type", JStr "password");
                    ("password", JStr "Pa$$w0rd");
                    ("salt", JStr "fcbca933-7021-432b-836d-c1142b1f310d");
                    ("hash", JStr "5a59750c5ae9eec93736464df0aabc3ff21c576078cd6fa378f0067589a715997e188a06ce98e2e4c4d01749d754b281032910e261dce397bf6b574cbc2b5345") ]))
      (Some (JArr [JStr "auth"; JStr "api"])) ].

Definition initial_world (now : Z) : world := mkWorld initial_identities 0 now.

(** ** The monad of operations *)

Definition M (A : Type) : Type := world -> outcome A * world.

Definition ret {A} (a : A) : M A := fun w => (Ret a, w).
Definition throw {A} (e : exn) : M A := fun w => (Throw e, w).
Definition bind {A B} (m : M A) (k : A -> M B) : M B :=
  fun w => match m w with
           | (Ret a, w') => k a w'
           | (Throw e, w') => (Throw e, w')
           end.
Definition lift {A} (o : outcome A) : M A := fun w => (o, w).
Definition gets {A} (f : world -> A) : M A := fun w => (Ret (f w), w).
Definition modify (f : world -> world) : M unit := fun w => (Ret tt, f w).
(** [try { body } catch (e) { handler }] *)
Definition try_catch {A} (body : M A) (handler : exn -> M A) : M A :=
  fun w => match body w with
           | (Ret a, w') => (Ret a, w')
           | (Throw e, w') => handler e w'
           end.

Notation "'let*' x ':=' m 'in' k" := (bind m (fun x => k))
  (at level 10, x pattern, m at level 100, k at level 200).

(** ** Regular expressions of the module *)

Definition code (c : ascii) : N := N_of_ascii c.
Definition in_range (lo hi c : ascii) : bool :=
  (N.leb (code lo) (code c) && N.leb (code c) (code hi))%bool.

(** The class [[A-z0-9_\-.]]; the range [A-z] spans the code points 65 to
    122 and so also holds the six characters between [Z] and [a]. *)
Definition word_class (c : ascii) : bool :=
  (in_range "A" "z" c || in_range "0" "9" c
   || Ascii.eqb c "_" || Ascii.eqb c "-" || Ascii.eqb c ".")%bool.

(** [s.match(/[cls]+/)] is non-null: the pattern is not anchored, so it
    matches as soon as one character of [s] belongs to the class. *)
Definition matches_class_plus (cls : ascii -> bool) (s : string) : bool :=
  existsb cls (list_ascii_of_string s).

Definition nameRegex_source : string := "/[A-z0-9_\-.]+/".
Definition nameRegex (s : string) : bool := matches_class_plus word_class s.
Definition functionRegex_source : string := "/[A-z0-9_\-.]+/".
Definition functionRegex (s : string) : bool := matches_class_plus word_class s.

(** ** Results returned by the module *)

Inductive result : Type :=
| Failure (st : string) (rsn : string)               (* {state, reason} *)
| Validated (cleanRecord : Identity.t) (authType : option Provider.t)
                                 (* {state:'success', pass:true, cleanRecord, authType} *)
| FromProvider (r : presult)                          (* a provider's object, verbatim *)
| IdentityResult (identity_ : Identity.t)             (* {state:'success', identity} *)
| Success                                             (* {state:'success'} *)
| WithToken (r : presult) (tok : string).             (* a provider's object with .token set *)

Definition state (r : result) : string :=
  match r with
  | Failure st _ => st
  | Validated _ _ => "success"
  | FromProvider p => pr_state p
  | IdentityResult _ => "success"
  | Success => "success"
  | WithToken p _ => pr_state p
  end.

Definition reason (r : result) : option string :=
  match r with
  | Failure _ rsn => Some rsn
  | FromProvider p => pr_reason p
  | WithToken p _ => pr_reason p
  | _ => None
  end.

Definition pass (r : result) : bool :=
  match r with
  | Validated _ _ => true
  | _ => false
  end.

Definition token (r : result) : option string :=
  match r with
  | WithToken _ t => Some t
  | _ => None
  end.

(** ** Arrays *)

(** [arr.findIndex(p)], [-1] when no element satisfies [p]. *)
Fixpoint findIndex_from {A} (p : A -> bool) (l : list A) (i : Z) : Z :=
  match l with
  | [] => -1
  | x :: r => if p x then i else findIndex_from p r (i + 1)
  end.
Definition findIndex {A} (p : A -> bool) (l : list A) : Z := findIndex_from p l 0.

(** [arr[i]] *)
Definition index {A} (l : list A) (i : Z) : option A :=
  if i <? 0 then None else nth_error l (Z.to_nat i).

Fixpoint remove_at {A} (n : nat) (l : list A) : list A :=
  match l, n with
  | [], _ => []
  | _ :: r, O => r
  | x :: r, S n' => x :: remove_at n' r
  end.

(** [arr.splice(i, 1)]: a negative start counts from the end. *)
Definition splice1 {A} (i : Z) (l : list A) : list A :=
  let len := Z.of_nat (List.length l) in
  let start := if i <? 0 then Z.max (len + i) 0 else Z.min i len in
  remove_at (Z.to_nat start) l.

(** The keys a [for (f in arr)] loop visits: the indices, as strings. *)
Definition array_keys {A} (l : list A) : list string :=
  List.map string_of_nat (seq 0 (List.length l)).

(** [arr.includes(f)] for an array of strings. *)
Definition includes (l : list string) (f : string) : bool :=
  existsb (String.eqb f) l.

(** ** validateIdentitySpec *)

Module Options.
Record t : Type := mk {
  newIdentity : bool;
  validFunctions : option (list string)
}.
Definition empty : t := mk false None.
End Options.

(** The own properties of [Object.prototype], which every object literal
    inherits. *)
Definition object_prototype_keys : list string :=
  [ "constructor"; "__proto__"; "hasOwnProperty"; "isPrototypeOf";
    "propertyIsEnumerable"; "toLocaleString"; "toString"; "valueOf";
    "__defineGetter__"; "__defineSetter__"; "__lookupGetter__";
    "__lookupSetter__" ].

(** [o.name == x] for a stored name [o.name] (a string).  At every call
    site [x] has passed [x.match(...)], so it is a string and [==] is string
    equality; [null] and [undefined] equal no string, and an array or object
    is compared through its string form (so are numbers and booleans, which
    never reach a call site). *)
Definition loose_eq_string (s : string) (x : option json) : bool :=
  match x with
  | None => false
  | Some JNull => false
  | Some j => String.eqb s (to_string j)
  end.

(** ** Tokens: the claims and the [jsonwebtoken] interface *)

Module Claims.
(** The payload [newToken] builds and [verifyToken] returns. *)
Record t : Type := mk {
  name : string;
  iat : Z;
  exp : Z;
  functions : option json     (* absent when the identity has none *)
}.
End Claims.

(** [jsonwebtoken], as far as [auth.js] uses it.  [jwt_verify tok key now]
    is [jwt.verify(tok, key)] run when the clock shows [now] seconds; it
    throws on a malformed token, a bad signature, or once [now] has reached
    the [exp] claim.  [jwt_decode] is [jwt.decode]. *)
Class JwtLib : Type := {
  jwt_sign : Claims.t -> string -> string;
  jwt_verify : string -> string -> Z -> outcome Claims.t;
  jwt_decode : string -> option Claims.t;
  jwt_verify_sign : forall p key now,
    jwt_verify (jwt_sign p key) key now =
      if now <? Claims.exp p then Ret p
      else Throw (JsonWebTokenError "jwt expired");
  jwt_decode_sign : forall p key, jwt_decode (jwt_sign p key) = Some p;
  jwt_verify_sound : forall tok key now p,
    jwt_verify tok key now = Ret p ->
    jwt_decode tok = Some p /\ now < Claims.exp p
}.

(** [Math.round(ms / 1000)] *)
Definition round_seconds (ms : Z) : Z := (ms + 500) / 1000.
(** [Math.floor(Date.now() / 1000)], the clock [jwt.verify] compares with. *)
Definition floor_seconds (ms : Z) : Z := ms / 1000.

Module TokenOptions.
(** [options.duration], a luxon duration, in milliseconds. *)
Record t : Type := mk { duration : option Z }.
End TokenOptions.

(** ** HTTP requests and responses *)

Inductive body_t : Type :=
| Pending                      (* nothing sent yet *)
| Ended                        (* [res.end()] *)
| SentResult (r : result)      (* [res.send(JSON.stringify(r))] *)
| SentJson (j : json).         (* [res.end(JSON.stringify(obj))] *)

Record response : Type := mkResponse {
  statusCode : Z;
  body : body_t
}.

(** A fresh Express response: status 200, nothing sent. *)
Definition fresh_response : response := mkResponse 200 Pending.

Definition status (n : Z) (res : response) : response := mkResponse n (body res).
Definition send (b : body_t) (res : response) : response := mkResponse (statusCode res) b.

Record request : Type := mkRequest {
  authorization : option string;        (* req.headers.authorization *)
  req_body : option json;               (* req.body *)
  identityId : string;                  (* req.params.identityId *)
  authenticated : option Claims.t       (* req.authenticated *)
}.

Definition is_line_terminator (c : ascii) : bool :=
  (Ascii.eqb c "010" || Ascii.eqb c "013")%bool.

Fixpoint take_while (p : ascii -> bool) (s : string) : string :=
  match s with
  | EmptyString => EmptyString
  | String c r => if p c then String c (take_while p r) else EmptyString
  end.

Fixpoint strip_prefix (pre s : string) : option string :=
  match pre, s with
  | EmptyString, _ => Some s
  | String a pre', String b s' => if Ascii.eqb a b then strip_prefix pre' s' else None
  | String _ _, EmptyString => None
  end.

(** [auth.match(/^(?<type>bearer) (?<token>.+)/)], yielding
    [m.groups.token]: the literal lower-case word, one space, then the
    longest non-empty run of characters other than line terminators. *)
Definition match_bearer (s : string) : option string :=
  match strip_prefix "bearer " s with
  | Some rest =>
      let tok := take_while (fun c => negb (is_line_terminator c)) rest in
      if String.eqb tok "" then None else Some tok
  | None => None
  end.

(** [r.state.match(/^request/)] *)
Definition match_request_prefix (s : string) : bool :=
  match strip_prefix "request" s with Some _ => true | None => false end.

(** [fs.includes('auth')] on the [functions] claim: array membership for an
    array, substring search for a string, a TypeError for any other truthy
    value. *)
Definition includes_auth (fs : json) : outcome bool :=
  match fs with
  | JArr l =>
      Ret (existsb (fun e => match e with JStr s => String.eqb s "auth" | _ => false end) l)
  | JStr s =>
      Ret (match String.index 0 "auth" s with Some _ => true | None => false end)
  | _ => Throw (TypeError "fs.includes is not a function")
  end.

Section Auth.

(** [require('./authProviders/password/module')] *)
Variable password_module : Provider.t.

(** [authTypes[k]] for [const authTypes = { password: ... }]. *)
Definition authTypes (k : option json) : option Provider.t :=
  let key := property_key k in
  if String.eqb key "password" then Some password_module
  else if includes object_prototype_keys key then Some Provider.inherited
  else None.

(** The part of the pipeline after the authentication details: the
    functions list and the final record. *)
Definition validate_functions (details : json) (options : Options.t)
    (nm : string) (cleanAuth : option json) (authType : option Provider.t)
    : M result :=
  let* dfunctions := lift (member (Some details) "functions") in
  if truthy dfunctions then
    match dfunctions with
    | Some (JArr fs) =>
        let incorrectFormat :=
          List.filter (fun f => negb (functionRegex f)) (array_keys fs) in
        if (0 <? Z.of_nat (List.length incorrectFormat)) then
          ret (Failure "requestError"
                 ("Incorrectly formatted function names (should match regex "
                    ++ functionRegex_source ++ "): "
                    ++ String.concat ", " incorrectFormat))
        else
          let invalidFunctions :=
            match Options.validFunctions options with
            | Some vf => List.filter (fun f => negb (includes vf f)) (array_keys fs)
            | None => []
            end in
          if (0 <? Z.of_nat (List.length invalidFunctions)) then
            ret (Failure "requestError"
                   ("Invalid functions named: "
                      ++ String.concat ", " invalidFunctions))
          else
            ret (Validated (Identity.mk None nm cleanAuth dfunctions) authType)
    | _ => ret (Failure "requestError" "Functions not specified as an array.")
    end
  else
    ret (Validated (Identity.mk None nm cleanAuth (Some (JArr []))) authType).

(** The part of the pipeline between the two: the authentication
    details. *)
Definition validate_authentication (details : json) (options : Options.t)
    (nm : string) : M result :=
  let* dauth := lift (member (Some details) "auth") in
  if (Options.newIdentity options && negb (truthy dauth))%bool then
    ret (Failure "requestError"
           "No athentication details specified for new identity.")
  else if truthy dauth then
    let* ty := lift (member dauth "type") in
    if negb (truthy ty) then
      ret (Failure "requestError" "No authentication type specified.")
    else
      match authTypes ty with
      | None =>
          ret (Failure "serverConfigurationError"
                 ("Invalid authentication type specified for user: "
                    ++ property_key ty))
      | Some authType =>
          match Provider.validate authType, Provider.commit authType with
          | None, _ =>
              ret (Failure "serverConfigurationError"
                     ("No validation function specified for authentication type: "
                        ++ property_key ty))
          | Some _, None =>
              ret (Failure "serverConfigurationError"
                     ("No commit function specified for authentication type: "
                        ++ property_key ty))
          | Some validate, Some _ =>
              match dauth with
              | Some a =>
                  let* r := lift (validate a) in
                  if negb (String.eqb (pr_state r) "success") then
                    ret (FromProvider r)
                  else
                    validate_functions details options nm
                      (pr_cleanRecord r) (Some authType)
              | None => throw (TypeError "auth is undefined")
              end
          end
      end
  else
    validate_functions details options nm None None.

Definition validateIdentitySpec (details : json) (options : option Options.t)
    : M result :=
  let options := match options with Some o => o | None => Options.empty end in
  let* dname := lift (member (Some details) "name") in
  if negb (truthy dname) then
    ret (Failure "requestError" "No user specified.")
  else
    match dname with
    | Some (JStr nm) =>
        if negb (nameRegex nm) then
          ret (Failure "requestError"
                 ("Invalid name format (should match regex "
                    ++ nameRegex_source ++ ")."))
        else
          let* i := gets (fun w =>
                      findIndex (fun o => String.eqb (Identity.name o) nm)
                                (identities w)) in
          if (Options.newIdentity options && negb (i =? -1))%bool then
            ret (Failure "requestError" "Identity name already in use.")
          else if (negb (Options.newIdentity options) && (i =? -1))%bool then
            ret (Failure "requestError" "No such user.")
          else
            validate_authentication details options nm
    | _ => throw (TypeError "details.name.match is not a function")
    end.

(** ** The identity operations *)

(** [uuidv4()]: the generator's successive outputs. *)
Variable uuid_source : nat -> string.

Definition uuidv4 : M string :=
  fun w => (Ret (uuid_source (uuids_drawn w)),
            mkWorld (identities w) (S (uuids_drawn w)) (clock w)).

(** [identities.push(record)] *)
Definition push_identity (record : Identity.t) : M unit :=
  modify (fun w => mkWorld (identities w ++ [record]) (uuids_drawn w) (clock w)).

Definition set_identities (l : list Identity.t) : M unit :=
  modify (fun w => mkWorld l (uuids_drawn w) (clock w)).

Definition commit_failed : result :=
  Failure "serverAuthCommitFailed"
    "An exception occured while commiting authentication details.".

(** The body of the [try] block of [addIdentity]: [inl] is an early
    [return r], [inr] the record with its committed credentials. *)
Definition addIdentity_commit (record : Identity.t) (authType : option Provider.t)
    : M (result + Identity.t) :=
  match authType with
  | None => throw (TypeError "Cannot read properties of null (reading 'commit')")
  | Some at_ =>
      match Provider.commit at_ with
      | None => throw (TypeError "r.authType.commit is not a function")
      | Some commit =>
          let* r := lift (commit (Identity.auth record)) in
          if negb (String.eqb (pr_state r) "success") then
            ret (inl (FromProvider r))
          else
            ret (inr (Identity.mk (Identity.id record) (Identity.name record)
                        (pr_commitRecord r) (Identity.functions record)))
      end
  end.

Definition addIdentity (details : json) : M result :=
  let* r := validateIdentitySpec details (Some (Options.mk true None)) in
  match r with
  | Validated cleanRecord authType =>
      let* uid := uuidv4 in
      let record := Identity.mk (Some uid) (Identity.name cleanRecord)
                      (Identity.auth cleanRecord) (Identity.functions cleanRecord) in
      let* c := try_catch (addIdentity_commit record authType)
                          (fun _ => ret (inl commit_failed)) in
      match c with
      | inl early => ret early
      | inr record =>
          let* _ := push_identity record in
          ret (IdentityResult record)
      end
  | _ => ret r
  end.

(** The identifier [name] at line 272 of [setIdentity]: the function has
    no parameter or local of that name, the module declares none, and
    Node.js has no such global, so evaluating it throws. *)
Definition setIdentity_name : outcome (option json) :=
  Throw (ReferenceError "name is not defined").

(** [arr.findIndex(p)] for a callback that may throw. *)
Fixpoint findIndexM_from {A} (p : A -> outcome bool) (l : list A) (i : Z)
    : outcome Z :=
  match l with
  | [] => Ret (-1)
  | x :: r =>
      match p x with
      | Ret true => Ret i
      | Ret false => findIndexM_from p r (i + 1)
      | Throw e => Throw e
      end
  end.

(** [Object.keys] of an identity record / of a clean record, in the order
    in which the module sets the properties. *)
Definition identity_keys (o : Identity.t) : list string :=
  ["name"]
    ++ (match Identity.auth o with Some _ => ["auth"] | None => [] end)
    ++ (match Identity.functions o with Some _ => ["functions"] | None => [] end)
    ++ (match Identity.id o with Some _ => ["id"] | None => [] end).

(** [identity[uf] = record[uf]] *)
Definition assign_field (uf : string) (identity_ record : Identity.t) : Identity.t :=
  if String.eqb uf "id" then
    Identity.mk (Identity.id record) (Identity.name identity_)
      (Identity.auth identity_) (Identity.functions identity_)
  else if String.eqb uf "name" then
    Identity.mk (Identity.id identity_) (Identity.name record)
      (Identity.auth identity_) (Identity.functions identity_)
  else if String.eqb uf "auth" then
    Identity.mk (Identity.id identity_) (Identity.name identity_)
      (Identity.auth record) (Identity.functions identity_)
  else if String.eqb uf "functions" then
    Identity.mk (Identity.id identity_) (Identity.name identity_)
      (Identity.auth identity_) (Identity.functions record)
  else identity_.

(** One turn of the [for (var uf in updateFields)] loop with its
    [switch]; the ['auth'] case stores the object returned by [commit] and
    falls through into [default]. *)
Definition setIdentity_step (record : Identity.t) (identityFields : list string)
    (uf : string) (identity_ : Identity.t) : outcome Identity.t :=
  let after_auth :=
    if String.eqb uf "auth" then
      match member (Identity.auth record) "type" with
      | Throw e => Throw e
      | Ret ty =>
          match authTypes ty with
          | None => Throw (TypeError "Cannot read properties of undefined (reading 'commit')")
          | Some at_ =>
              match Provider.commit at_ with
              | None => Throw (TypeError "authType.commit is not a function")
              | Some commit =>
                  match commit (Identity.auth record) with
                  | Throw e => Throw e
                  | Ret commitRecord =>
                      Ret (Identity.mk (Identity.id identity_) (Identity.name identity_)
                             (Some (presult_to_json commitRecord))
                             (Identity.functions identity_))
                  end
              end
          end
      end
    else Ret identity_ in
  match after_auth with
  | Throw e => Throw e
  | Ret identity_ =>
      if includes identityFields uf then Ret (assign_field uf identity_ record)
      else Ret identity_
  end.

Fixpoint setIdentity_loop (record : Identity.t) (identityFields : list string)
    (ufs : list string) (identity_ : Identity.t) : outcome Identity.t :=
  match ufs with
  | [] => Ret identity_
  | uf :: r =>
      match setIdentity_step record identityFields uf identity_ with
      | Throw e => Throw e
      | Ret identity' => setIdentity_loop record identityFields r identity'
      end
  end.

Fixpoint replace_at {A} (n : nat) (x : A) (l : list A) : list A :=
  match l, n with
  | [], _ => []
  | _ :: r, O => x :: r
  | y :: r, S n' => y :: replace_at n' x r
  end.

Definition setIdentity (details : json) : M result :=
  let* r := validateIdentitySpec details None in
  match r with
  | Validated record _ =>
      let* ids := gets identities in
      let* i := lift (findIndexM_from
                        (fun o => match setIdentity_name with
                                  | Ret nm => Ret (loose_eq_string (Identity.name o) nm)
                                  | Throw e => Throw e
                                  end) ids 0) in
      match index ids i with
      | None => throw (TypeError "Cannot convert undefined or null to object")
      | Some identity_ =>
          let identityFields := identity_keys identity_ in
          let updateFields := identity_keys record in
          let* identity' := lift (setIdentity_loop record identityFields
                                    (array_keys updateFields) identity_) in
          let* _ := set_identities (replace_at (Z.to_nat i) identity' ids) in
          ret (IdentityResult identity')
      end
  | _ => ret r
  end.

Definition removeIdentity (nm : option json) : M result :=
  let details := JObj (match nm with Some v => [("name", v)] | None => [] end) in
  let* r := validateIdentitySpec details None in
  if negb (pass r) then ret r
  else
    let* i := gets (fun w => findIndex (fun o => loose_eq_string (Identity.name o) nm)
                                       (identities w)) in
    let* ids := gets identities in
    let* _ := set_identities (splice1 i ids) in
    ret Success.

(** ** Token service *)

Context {J : JwtLib}.
(** [const secret = uuidv4()], drawn once when the module is loaded. *)
Variable secret : string.

Definition newToken_payload (now : Z) (identity_ : Identity.t)
    (options : option TokenOptions.t) : Claims.t :=
  let exp0 := round_seconds (now + 30 * 60 * 1000) in
  let exp1 :=
    match options with
    | Some o =>
        match TokenOptions.duration o with
        | Some d => round_seconds (now + d)
        | None => exp0
        end
    | None => exp0
    end in
  Claims.mk (Identity.name identity_) (round_seconds now) exp1
    (if truthy (Identity.functions identity_) then Identity.functions identity_
     else None).

Definition newToken (identity_ : Identity.t) (options : option TokenOptions.t)
    : M string :=
  let* now := gets clock in
  ret (jwt_sign (newToken_payload now identity_ options) secret).

Definition verifyToken (tok : string) : M (option Claims.t) :=
  try_catch
    (let* now := gets clock in
     let* _ := lift (jwt_verify tok secret (floor_seconds now)) in
     ret (jwt_decode tok))
    (fun _ => ret None).

(** ** authenticate *)

Definition authenticate (details : json) : M result :=
  let* r := validateIdentitySpec details None in
  if negb (pass r) then ret r
  else
    let* dname := lift (member (Some details) "name") in
    let* ids := gets identities in
    let i := findIndex (fun o => loose_eq_string (Identity.name o) dname) ids in
    match index ids i with
    | None => throw (TypeError "Cannot read properties of undefined (reading 'auth')")
    | Some identity_ =>
        let* ty := lift (member (Identity.auth identity_) "type") in
        match authTypes ty with
        | None =>
            throw (TypeError "Cannot read properties of undefined (reading 'authenticate')")
        | Some authType =>
            match Provider.authenticate authType with
            | None => throw (TypeError "authType.authenticate is not a function")
            | Some provider_authenticate =>
                let* r := lift (provider_authenticate (Identity.auth identity_) details) in
                if negb (String.eqb (pr_state r) "success") then ret (FromProvider r)
                else
                  let* t := newToken identity_ None in
                  ret (WithToken r t)
            end
        end
    end.

(** ** Endpoints ([module.exports.setup]) and the middleware *)

Definition truthy_token (r : result) : bool :=
  match token r with
  | Some t => negb (String.eqb t "")
  | None => false
  end.

(** The [switch (r.state)] of the authentication endpoint; it has no
    [default] case. *)
Definition post_authenticate_status (st : string) (res : response) : response :=
  if String.eqb st "requestError" then status 400 res
  else if String.eqb st "serverError" then status 500 res
  else if String.eqb st "failed" then status 403 res
  else res.

(** [app.post(path, ...)] *)
Definition post_authenticate (req : request) (res : response) : M response :=
  let* r := match req_body req with
            | Some details => authenticate details
            | None =>
                throw (TypeError "Cannot read properties of undefined (reading 'name')")
            end in
  if truthy_token r then
    ret (send (SentResult r) (status 200 res))
  else
    ret (send (SentResult r) (post_authenticate_status (state r) res)).

(** [app.use(path, ...)]: [inl res] when the request is answered here,
    [inr tt] when [next()] is called. *)
Definition require_auth_function (req : request) (res : response)
    : outcome (response + unit) :=
  match authenticated req with
  | None => Ret (inl (send Ended (status 403 res)))
  | Some claims =>
      let fs := Claims.functions claims in
      if negb (truthy fs) then Ret (inl (send Ended (status 403 res)))
      else
        match fs with
        | Some v =>
            match includes_auth v with
            | Throw e => Throw e
            | Ret true => Ret (inr tt)
            | Ret false => Ret (inl (send Ended (status 403 res)))
            end
        | None => Ret (inl (send Ended (status 403 res)))
        end
  end.

(** [app.post(`${path}/user`, ...)] *)
Definition post_user (req : request) (res : response) : M response :=
  if negb (truthy (req_body req)) then
    ret (send (SentJson (JObj [ ("status", JStr "requestError");
                                 ("reason", JStr "No user details provided.") ]))
           (status 400 res))
  else
    match req_body req with
    | Some details =>
        let* r := addIdentity details in
        if String.eqb (state r) "success" then
          ret (send Ended (status 201 res))
        else if match_request_prefix (state r) then
          ret (send (SentResult r) (status 400 res))
        else
          ret (send (SentResult r) (status 500 res))
    | None => ret res
    end.

(** [app.delete(`${path}/user/:identityId`, ...)] *)
Definition delete_user (req : request) (res : response) : M response :=
  let* r := removeIdentity (Some (JStr (identityId req))) in
  if String.eqb (state r) "success" then
    ret (send (SentResult r) (status 200 res))
  else
    ret (send (SentResult r) (status 400 res)).

(** [module.exports.mw_verify]; [next()] is called in every case. *)
Definition mw_verify (req : request) : M request :=
  match authorization req with
  | Some auth =>
      if negb (String.eqb auth "") then
        match match_bearer auth with
        | Some tok =>
            let* p := verifyToken tok in
            match p with
            | Some claims =>
                ret (mkRequest (authorization req) (req_body req) (identityId req)
                       (Some claims))
            | None => ret req
            end
        | None => ret req
        end
      else ret req
  | None => ret req
  end.

End Auth.

(** ** A reference implementation of the token library

    Used to instantiate [JwtLib]: a token is the binary spelling of the
    code of the claims together with the signing key, so verification can
    recover both and compare the key. *)

Module ReferenceJwt.

Fixpoint json_to_tree (j : json) : gen_tree (Z + string) :=
  match j with
  | JNull => GenNode 0 []
  | JBool true => GenNode 1 []
  | JBool false => GenNode 2 []
  | JNum z => GenLeaf (inl z)
  | JStr s => GenLeaf (inr s)
  | JArr l => GenNode 3 (List.map json_to_tree l)
  | JObj m =>
      GenNode 4 (List.map (fun kv => GenNode 5 [GenLeaf (inr (fst kv)); json_to_tree (snd kv)]) m)
  end.

Fixpoint tree_to_json (t : gen_tree (Z + string)) : option json :=
  match t with
  | GenLeaf (inl z) => Some (JNum z)
  | GenLeaf (inr s) => Some (JStr s)
  | GenNode 0 [] => Some JNull
  | GenNode 1 [] => Some (JBool true)
  | GenNode 2 [] => Some (JBool false)
  | GenNode 3 ts =>
      option_map JArr
        ((fix go (ts : list (gen_tree (Z + string))) : option (list json) :=
            match ts with
            | [] => Some []
            | t :: r =>
                match tree_to_json t, go r with
                | Some j, Some js => Some (j :: js)
                | _, _ => None
                end
            end) ts)
  | GenNode 4 ts =>
      option_map JObj
        ((fix go (ts : list (gen_tree (Z + string))) : option (list (string * json)) :=
            match ts with
            | [] => Some []
            | GenNode 5 [GenLeaf (inr k); v] :: r =>
                match tree_to_json v, go r with
                | Some j, Some js => Some ((k, j) :: js)
                | _, _ => None
                end
            | _ => None
            end) ts)
  | _ => None
  end.

Definition claims_to_tree (p : Claims.t) (key : string) : gen_tree (Z + string) :=
  GenNode 6 [ GenLeaf (inr (Claims.name p)); GenLeaf (inl (Claims.iat p));
              GenLeaf (inl (Claims.exp p));
              match Claims.functions p with
              | Some f => GenNode 7 [json_to_tree f]
              | None => GenNode 8 []
              end;
              GenLeaf (inr key) ].

Definition tree_to_claims (t : gen_tree (Z + string)) : option (Claims.t * string) :=
  match t with
  | GenNode 6 [GenLeaf (inr n); GenLeaf (inl i); GenLeaf (inl e); f; GenLeaf (inr key)] =>
      match f with
      | GenNode 7 [ft] =>
          match tree_to_json ft with
          | Some fj => Some (Claims.mk n i e (Some fj), key)
          | None => None
          end
      | GenNode 8 [] => Some (Claims.mk n i e None, key)
      | _ => None
      end
  | _ => None
  end.

Fixpoint pos_to_bits (p : positive) : string :=
  match p with
  | xH => EmptyString
  | xO q => String "0" (pos_to_bits q)
  | xI q => String "1" (pos_to_bits q)
  end.

Fixpoint bits_to_pos (s : string) : option positive :=
  match s with
  | EmptyString => Some xH
  | String c r =>
      match bits_to_pos r with
      | Some q =>
          if Ascii.eqb c "0" then Some (xO q)
          else if Ascii.eqb c "1" then Some (xI q)
          else None
      | None => None
      end
  end.

Definition sign (p : Claims.t) (key : string) : string :=
  pos_to_bits (encode (claims_to_tree p key)).

Definition parse (tok : string) : option (Claims.t * string) :=
  match bits_to_pos tok with
  | Some n =>
      match decode n with
      | Some t => tree_to_claims t
      | None => None
      end
  | None => None
  end.

Definition verify (tok key : string) (now : Z) : outcome Claims.t :=
  match parse tok with
  | Some (p, key') =>
      if String.eqb key' key then
        if now <? Claims.exp p then Ret p
        else Throw (JsonWebTokenError "jwt expired")
      else Throw (JsonWebTokenError "invalid signature")
  | None => Throw (JsonWebTokenError "jwt malformed")
  end.

Definition decode_token (tok : string) : option Claims.t :=
  option_map fst (parse tok).

End ReferenceJwt.

(** ** Reference providers

    Modelled from the spec: the password provider
    ([authProviders/password/module]) is not part of the sources.  The spec
    gives its contract: [validate] checks that a password string is present
    and returns the clean credential record, [commit] turns it into the
    stored form, [authenticate] compares the supplied credential with the
    stored one.  The model stores the password itself where the real
    provider stores a salted hash. *)

Module ReferencePassword.

Definition password_of (a : option json) : option string :=
  match member a "password" with
  | Ret (Some (JStr s)) => if String.eqb s "" then None else Some s
  | _ => None
  end.

Definition validate (a : json) : outcome presult :=
  match password_of (Some a) with
  | Some s =>
      Ret (mkPresult "success" None
             (Some (JObj [("type", JStr "password"); ("password", JStr s)])) None)
  | None => Ret (mkPresult "requestError" (Some "No password specified.") None None)
  end.

Definition commit (clean : option json) : outcome presult :=
  Ret (mkPresult "success" None None clean).

Definition authenticate (stored : option json) (details : json) : outcome presult :=
  match member (Some details) "auth" with
  | Ret supplied =>
      match password_of supplied, password_of stored with
      | Some s, Some s' =>
          if String.eqb s s' then Ret (mkPresult "success" None None None)
          else Ret (mkPresult "failed" (Some "Authentication failed.") None None)
      | None, _ => Ret (mkPresult "requestError" (Some "No password specified.") None None)
      | _, None => Ret (mkPresult "failed" (Some "Authentication failed.") None None)
      end
  | Throw e => Throw e
  end.

Definition module_ : Provider.t :=
  Provider.mk (Some validate) (Some commit) (Some authenticate).

(** The same provider with a [commit] that throws. *)
Definition failing_commit (_ : option json) : outcome presult :=
  Throw (ProviderError "commit failed").

Definition module_failing_commit : Provider.t :=
  Provider.mk (Some validate) (Some failing_commit) (Some authenticate).

End ReferencePassword.

(** A uuid generator for concrete runs. *)
Definition reference_uuid (n : nat) : string := "uuid-" ++ string_of_nat n.

(** ** Sequences of store operations *)

Inductive store_op : Type :=
| OpAdd (details : json)
| OpRemove (nm : option json).

Definition apply_op (password_module : Provider.t) (uuid_source : nat -> string)
    (op : store_op) (w : world) : world :=
  match op with
  | OpAdd details => snd (addIdentity password_module uuid_source details w)
  | OpRemove nm => snd (removeIdentity password_module nm w)
  end.

Definition run_ops (password_module : Provider.t) (uuid_source : nat -> string)
    (ops : list store_op) (w : world) : world :=
  fold_left (fun w op => apply_op password_module uuid_source op w) ops w.

(** The number of records of the store whose name is [n]. *)
Definition occurrences (n : string) (l : list Identity.t) : nat :=
  List.length (List.filter (fun o => String.eqb (Identity.name o) n) l).

(** Every name of the store occurs at most once in it. *)
Definition unique_names (l : list Identity.t) : bool :=
  forallb (fun o => Nat.leb (occurrences (Identity.name o) l) 1) l.

(** ** Definitions used in the statements *)

(** What a successful validation establishes about the clean record. *)
Definition validated_for (newIdentity : bool) (details : json) (w : world)
    (cr : Identity.t) : Prop :=
  member (Some details) "name" = Ret (Some (JStr (Identity.name cr)))
  /\ Identity.id cr = None
  /\ nameRegex (Identity.name cr) = true
  /\ existsb (fun o => String.eqb (Identity.name o) (Identity.name cr)) (identities w)
     = negb newIdentity.

(** The request with its [Authorization] header set to [h]. *)
Definition with_authorization (h : string) (req : request) : request :=
  mkRequest (Some h) (req_body req) (identityId req) (authenticated req).

(** No character of [s] is a line terminator. *)
Definition no_line_terminator (s : string) : bool :=
  forallb (fun c => negb (is_line_terminator c)) (list_ascii_of_string s).


(** The options [addIdentity] passes: [{ newIdentity: true }]. *)
Definition creation : option Options.t := Some (Options.mk true None).

(** The list without its first element that satisfies [p]. *)
Fixpoint remove_first {A} (p : A -> bool) (l : list A) : list A :=
  match l with
  | [] => []
  | x :: r => if p x then r else x :: remove_first p r
  end.

(** [res.status(403); res.end()] *)
Definition forbidden (res : response) : response := send Ended (status 403 res).

(** Concrete data for the instances below. *)
Definition admin_identity : Identity.t :=
  Identity.mk None "admin" None (Some (JArr [JStr "auth"; JStr "api"])).

Definition bob_details : json :=
  JObj [ ("name", JStr "bob");
         ("auth", JObj [("type", JStr "password"); ("password", JStr "x")]);
         ("functions", JArr [JStr "api"]) ].

Definition reference_secret : string := "1b9d6bcd-bbfd-4b2d-9b5d-ab8dfbbd4bed".

Definition admin_only : json := JObj [("name", JStr "admin")].


Definition carol_without_password : json :=
  JObj [("name", JStr "carol"); ("auth", JObj [("type", JStr "password")])].

Definition admin_login : json :=
  JObj [ ("name", JStr "admin");
         ("auth", JObj [("type", JStr "password"); ("password", JStr "Pa$$w0rd")]) ].

(** * Properties *)

Ltac unfold_M :=
  unfold bind, ret, lift, gets, throw, modify, try_catch in *.

Ltac break_match :=
  match goal with
  | |- context [match ?x with _ => _ end] =>
      lazymatch x with
      | context [match _ with _ => _ end] => fail
      | _ => destruct x eqn:?
      end
  end.

(** ** The reference token library satisfies the interface *)

Module ReferenceJwtLaws.

Lemma tree_to_json_to_tree (j : json) : ReferenceJwt.tree_to_json (ReferenceJwt.json_to_tree j) = Some j.
Proof.
  induction j as [| [] | | | l IH | m IH] using json_nested_ind; try reflexivity.
  - cbn [ReferenceJwt.json_to_tree ReferenceJwt.tree_to_json].
    match goal with |- option_map _ ?g = _ => assert (E : g = Some l) end.
    { induction IH as [| x r Hx _ IHr]; [reflexivity|].
      cbn [List.map]. rewrite Hx, IHr. reflexivity. }
    rewrite E. reflexivity.
  - cbn [ReferenceJwt.json_to_tree ReferenceJwt.tree_to_json].
    match goal with |- option_map _ ?g = _ => assert (E : g = Some m) end.
    { induction IH as [| [k v] r Hx _ IHr]; [reflexivity|].
      cbn [List.map fst snd] in *. rewrite Hx, IHr. reflexivity. }
    rewrite E. reflexivity.
Qed.

Lemma tree_to_claims_to_tree (p : Claims.t) (key : string) :
  ReferenceJwt.tree_to_claims (ReferenceJwt.claims_to_tree p key) = Some (p, key).
Proof.
  destruct p as [n i e [f|]]; cbn; [|reflexivity].
  rewrite tree_to_json_to_tree. reflexivity.
Qed.

Lemma bits_to_pos_to_bits (p : positive) : ReferenceJwt.bits_to_pos (ReferenceJwt.pos_to_bits p) = Some p.
Proof. induction p; cbn; rewrite ?IHp; reflexivity. Qed.

Lemma parse_sign (p : Claims.t) (key : string) : ReferenceJwt.parse (ReferenceJwt.sign p key) = Some (p, key).
Proof.
  unfold ReferenceJwt.parse, ReferenceJwt.sign. rewrite bits_to_pos_to_bits, decode_encode.
  apply tree_to_claims_to_tree.
Qed.

#[export] Instance lib : JwtLib.
Proof.
  refine {| jwt_sign := ReferenceJwt.sign; jwt_verify := ReferenceJwt.verify;
            jwt_decode := ReferenceJwt.decode_token |}.
  - intros p key now. unfold ReferenceJwt.verify. rewrite parse_sign, String.eqb_refl. reflexivity.
  - intros p key. unfold ReferenceJwt.decode_token. rewrite parse_sign. reflexivity.
  - intros tok key now p. unfold ReferenceJwt.verify, ReferenceJwt.decode_token.
    destruct (ReferenceJwt.parse tok) as [[q key']|]; [|discriminate].
    destruct (String.eqb key' key); [|discriminate].
    destruct (now <? Claims.exp q) eqn:E; [|discriminate].
    intros [= ->]. split; [reflexivity|]. apply Z.ltb_lt. exact E.
Defined.

End ReferenceJwtLaws.

Section Properties.

Context {J : JwtLib}.
Variable password_module : Provider.t.
Variable uuid_source : nat -> string.
Variable secret : string.

Lemma validate_functions_world details options nm ca at_ w :
  snd (validate_functions details options nm ca at_ w) = w.
Proof.
  unfold validate_functions. unfold_M.
  repeat (break_match; cbn [snd fst]); try reflexivity; congruence.
Qed.

Lemma validate_authentication_world details options nm w :
  snd (validate_authentication password_module details options nm w) = w.
Proof.
  unfold validate_authentication. unfold_M.
  repeat first
    [ reflexivity
    | apply validate_functions_world
    | match goal with H : (_, _) = (_, _) |- _ => inversion H; subst; clear H end
    | break_match; cbn [snd fst] in * ].
Qed.

Lemma validateIdentitySpec_world details options w :
  snd (validateIdentitySpec password_module details options w) = w.
Proof.
  unfold validateIdentitySpec. unfold_M.
  repeat first
    [ reflexivity
    | apply validate_authentication_world
    | match goal with H : (_, _) = (_, _) |- _ => inversion H; subst; clear H end
    | break_match; cbn [snd fst] in * ].
Qed.

Lemma findIndex_from_absent {A} (p : A -> bool) (l : list A) (i : Z) :
  0 <= i -> (findIndex_from p l i =? -1) = negb (existsb p l).
Proof.
  revert i. induction l as [|x r IH]; intros i Hi; cbn; [reflexivity|].
  destruct (p x); cbn.
  - apply Z.eqb_neq. lia.
  - apply IH. lia.
Qed.

Lemma findIndex_absent {A} (p : A -> bool) (l : list A) :
  (findIndex p l =? -1) = negb (existsb p l).
Proof. apply findIndex_from_absent. lia. Qed.

Lemma validate_functions_spec details options nm ca at_ w :
  match fst (validate_functions details options nm ca at_ w) with
  | Ret (Validated cr a) =>
      Identity.name cr = nm /\ Identity.id cr = None /\ Identity.auth cr = ca /\ a = at_
  | _ => True
  end.
Proof.
  unfold validate_functions. unfold_M.
  repeat (break_match; cbn [snd fst]); cbn; auto.
Qed.

Lemma validateIdentitySpec_spec details options w :
  match fst (validateIdentitySpec password_module details options w) with
  | Ret (Validated cr a) =>
      validated_for
        (Options.newIdentity (match options with Some o => o | None => Options.empty end))
        details w cr
  | _ => True
  end.
Proof.
  unfold validateIdentitySpec. unfold_M.
  set (opts := match options with Some o => o | None => Options.empty end).
  destruct (member (Some details) "name") as [dname|] eqn:Hname; cbn [fst]; [|exact I].
  destruct (negb (truthy dname)); cbn [fst]; [exact I|].
  destruct dname as [[| | |nm| |]|]; cbn [fst]; try exact I.
  destruct (negb (nameRegex nm)) eqn:Hre; cbn [fst]; [exact I|].
  rewrite !findIndex_absent.
  set (present := existsb _ (identities w)).
  assert (Hgoal : forall ca at_,
    Options.newIdentity opts = negb present ->
    match fst (validate_functions details opts nm ca at_ w) with
    | Ret (Validated cr a) => validated_for (Options.newIdentity opts) details w cr
    | _ => True
    end).
  { intros ca at_ Hnew.
    pose proof (validate_functions_spec details opts nm ca at_ w) as Hs.
    destruct (fst (validate_functions details opts nm ca at_ w)) as [[]|]; auto.
    destruct Hs as (Hn & Hid & _ & _).
    unfold validated_for. rewrite Hn. repeat split; auto.
    - apply negb_false_iff. exact Hre.
    - fold present. rewrite Hnew. symmetry. apply negb_involutive. }
  destruct (Options.newIdentity opts) eqn:Hnew, present eqn:Hp; cbn; try exact I.
  all: unfold validate_authentication; unfold_M; rewrite ?Hnew.
  all: repeat first
    [ exact I
    | apply Hgoal; reflexivity
    | break_match; cbn [fst snd] ].
Qed.

Lemma validateIdentitySpec_inv details options w cr a w' :
  validateIdentitySpec password_module details options w = (Ret (Validated cr a), w') ->
  w' = w /\
  validated_for
    (Options.newIdentity (match options with Some o => o | None => Options.empty end))
    details w cr.
Proof.
  intros H.
  pose proof (validateIdentitySpec_world details options w) as Hw.
  pose proof (validateIdentitySpec_spec details options w) as Hs.
  rewrite H in Hw, Hs. cbn in Hw, Hs. auto.
Qed.

(** *** How the mutating operations change the store *)

Lemma addIdentity_store details w :
  identities (snd (addIdentity password_module uuid_source details w)) = identities w
  \/ exists record,
       identities (snd (addIdentity password_module uuid_source details w))
         = (identities w ++ [record])%list
       /\ existsb (fun o => String.eqb (Identity.name o) (Identity.name record))
                  (identities w) = false.
Proof.
  unfold addIdentity. unfold_M.
  destruct (validateIdentitySpec password_module details
              (Some (Options.mk true None)) w) as [[r|e] w1] eqn:Hv;
    [|left; rewrite <- (validateIdentitySpec_world details (Some (Options.mk true None)) w), Hv;
      reflexivity].
  destruct r as [st rsn|cr a|pr|i| |pr t];
    try (left; rewrite <- (validateIdentitySpec_world details (Some (Options.mk true None)) w), Hv;
         reflexivity).
  apply validateIdentitySpec_inv in Hv. destruct Hv as (-> & _ & _ & _ & Hex).
  cbn in Hex. unfold uuidv4, addIdentity_commit, push_identity. unfold_M.
  destruct a as [at_|]; cbn; [|left; reflexivity].
  destruct (Provider.commit at_) as [commit|]; cbn; [|left; reflexivity].
  destruct (commit (Identity.auth cr)) as [r|e]; cbn; [|left; reflexivity].
  destruct (negb (pr_state r =? "success")%string); cbn; [left; reflexivity|].
  right. eexists. split; [reflexivity|]. cbn. exact Hex.
Qed.

Lemma removeIdentity_store nm w :
  identities (snd (removeIdentity password_module nm w)) = identities w
  \/ exists i, identities (snd (removeIdentity password_module nm w))
                 = remove_at i (identities w).
Proof.
  unfold removeIdentity. unfold_M.
  match goal with
  | |- context [validateIdentitySpec password_module ?d None w] =>
      pose proof (validateIdentitySpec_world d None w) as Hw;
      destruct (validateIdentitySpec password_module d None w) as [[r|e] w1]
  end; cbn in Hw; subst w1; [|left; reflexivity].
  destruct (negb (pass r)); cbn; [left; reflexivity|].
  right. unfold set_identities, splice1. unfold_M. cbn. eexists. reflexivity.
Qed.

(** *** Counting the records of a name *)

Lemma occurrences_app n l l' :
  occurrences n (l ++ l')%list = (occurrences n l + occurrences n l')%nat.
Proof. unfold occurrences. rewrite List.filter_app, List.length_app. reflexivity. Qed.

Lemma occurrences_absent n l :
  existsb (fun o => String.eqb (Identity.name o) n) l = false -> occurrences n l = 0%nat.
Proof.
  unfold occurrences. induction l as [|x r IH]; cbn; [reflexivity|].
  destruct (String.eqb (Identity.name x) n); cbn; [discriminate|exact IH].
Qed.

Lemma occurrences_remove_at n i l :
  (occurrences n (remove_at i l) <= occurrences n l)%nat.
Proof.
  unfold occurrences. revert i. induction l as [|x r IH]; intros [|i]; cbn; try lia.
  - destruct (String.eqb (Identity.name x) n); cbn; lia.
  - specialize (IH i). destruct (String.eqb (Identity.name x) n); cbn; lia.
Qed.

Lemma occurrences_present n l :
  (0 < occurrences n l)%nat -> exists o, In o l /\ Identity.name o = n.
Proof.
  unfold occurrences. induction l as [|x r IH]; cbn; [lia|].
  destruct (String.eqb (Identity.name x) n) eqn:E; cbn; intros H.
  - exists x. split; [left; reflexivity|]. apply String.eqb_eq. exact E.
  - destruct (IH H) as (o & Ho & Hn). exists o. split; [right; exact Ho|exact Hn].
Qed.

Lemma unique_names_occurrences l :
  unique_names l = true -> forall n, (occurrences n l <= 1)%nat.
Proof.
  intros H n. unfold unique_names in H. rewrite forallb_forall in H.
  destruct (occurrences n l) as [|k] eqn:E; [lia|].
  destruct (occurrences_present n l) as (o & Ho & Hn); [lia|].
  specialize (H o Ho). rewrite Hn, E in H. apply Nat.leb_le in H. exact H.
Qed.

Lemma apply_op_unique op w :
  (forall n, (occurrences n (identities w) <= 1)%nat) ->
  forall n, (occurrences n (identities (apply_op password_module uuid_source op w)) <= 1)%nat.
Proof.
  intros H n. destruct op as [details|nm]; cbn [apply_op].
  - destruct (addIdentity_store details w) as [->|(record & -> & Hex)]; [apply H|].
    rewrite occurrences_app. unfold occurrences at 2. cbn.
    destruct (String.eqb (Identity.name record) n) eqn:E; cbn.
    + apply String.eqb_eq in E. subst n. rewrite (occurrences_absent _ _ Hex). lia.
    + specialize (H n). lia.
  - destruct (removeIdentity_store nm w) as [->|(i & ->)]; [apply H|].
    pose proof (occurrences_remove_at n i (identities w)). specialize (H n). lia.
Qed.

(** * The claims *)

(** C1.  When the provider's [commit] throws during [addIdentity], the
    exception is caught, the result has state ['serverAuthCommitFailed'],
    and the identities store is exactly the one before the call (no record
    was appended, so its size is the same too). *)
Theorem addIdentity_commit_throw_atomic details w cr at_ commit e w1 :
  validateIdentitySpec password_module details (Some (Options.mk true None)) w
    = (Ret (Validated cr (Some at_)), w1) ->
  Provider.commit at_ = Some commit ->
  commit (Identity.auth cr) = Throw e ->
  exists r w',
    addIdentity password_module uuid_source details w = (Ret r, w')
    /\ state r = "serverAuthCommitFailed"
    /\ identities w' = identities w
    /\ List.length (identities w') = List.length (identities w).
Proof.
  intros Hv Hc He.
  pose proof (validateIdentitySpec_world details (Some (Options.mk true None)) w) as Hw.
  rewrite Hv in Hw. cbn in Hw. subst w1.
  unfold addIdentity. unfold_M. rewrite Hv.
  unfold uuidv4, addIdentity_commit. unfold_M. cbn. rewrite Hc. cbn. rewrite He. cbn.
  eexists _, _. repeat split.
Qed.

(** C3.  Starting from a store in which every name occurs at most once,
    after any sequence of [addIdentity] and [removeIdentity] calls the store
    holds at most one record of any given name. *)
Theorem store_names_stay_unique ops w :
  unique_names (identities w) = true ->
  forall n,
    (occurrences n (identities (run_ops password_module uuid_source ops w)) <= 1)%nat.
Proof.
  intros H0. pose proof (unique_names_occurrences _ H0) as H. clear H0.
  unfold run_ops. revert w H.
  induction ops as [|op ops IH]; intros w H n; cbn [fold_left]; [apply H|].
  apply IH. apply apply_op_unique. exact H.
Qed.

(** C9.  [validateIdentitySpec] is a pure read: whatever the details and
    options, and whether it returns or throws, the world after the call
    (the store included) is the world before.  Of the other operations,
    [newToken], [verifyToken], [authenticate] and the [mw_verify]
    middleware leave the store as it was as well, so the store is written
    only by [addIdentity], [setIdentity] and [removeIdentity]. *)
Theorem validateIdentitySpec_reads_only details options w :
  snd (validateIdentitySpec password_module details options w) = w
  /\ (forall identity_ topts, snd (newToken secret identity_ topts w) = w)
  /\ (forall tok, snd (verifyToken secret tok w) = w)
  /\ snd (authenticate password_module secret details w) = w
  /\ (forall req, snd (mw_verify secret req w) = w).
Proof.
  assert (Hverify : forall tok, snd (verifyToken secret tok w) = w).
  { intros tok. unfold verifyToken. unfold_M.
    destruct (jwt_verify tok secret (floor_seconds (clock w))); reflexivity. }
  split; [apply validateIdentitySpec_world|].
  split; [reflexivity|]. split; [exact Hverify|]. split.
  - unfold authenticate. unfold_M.
    pose proof (validateIdentitySpec_world details None w) as Hw.
    destruct (validateIdentitySpec password_module details None w) as [[r|e] w1];
      cbn in Hw; subst w1; [|reflexivity].
    unfold newToken. unfold_M.
    repeat first [reflexivity | break_match; cbn [fst snd] in *
                 | match goal with H : (_, _) = (_, _) |- _ => inversion H; subst; clear H end].
  - intros req. unfold mw_verify. unfold_M.
    destruct (authorization req) as [a|]; [|reflexivity].
    destruct (negb (a =? "")%string); [|reflexivity].
    destruct (match_bearer a) as [tok|]; [|reflexivity].
    specialize (Hverify tok).
    destruct (verifyToken secret tok w) as [[[c|]|e] w1]; cbn in *; exact Hverify.
Qed.

(** *** Tokens *)

Lemma verifyToken_signed p w :
  floor_seconds (clock w) < Claims.exp p ->
  verifyToken secret (jwt_sign p secret) w = (Ret (Some p), w).
Proof.
  intros H. unfold verifyToken. unfold_M.
  rewrite jwt_verify_sign, jwt_decode_sign.
  apply Z.ltb_lt in H. rewrite H. reflexivity.
Qed.

(** C2.  A token issued for an identity with name [n] and functions list
    [F] verifies, at any instant before its expiry, to claims whose [name]
    is [n] and whose [functions] is [F]. *)
Theorem token_round_trip identity_ F w1 w2 :
  Identity.functions identity_ = Some (JArr F) ->
  floor_seconds (clock w2) < Claims.exp (newToken_payload (clock w1) identity_ None) ->
  exists tok claims,
    fst (newToken secret identity_ None w1) = Ret tok
    /\ fst (verifyToken secret tok w2) = Ret (Some claims)
    /\ Claims.name claims = Identity.name identity_
    /\ Claims.functions claims = Some (JArr F).
Proof.
  intros HF Hexp.
  exists (jwt_sign (newToken_payload (clock w1) identity_ None) secret).
  exists (newToken_payload (clock w1) identity_ None).
  split; [reflexivity|]. split; [rewrite verifyToken_signed by exact Hexp; reflexivity|].
  split; [reflexivity|]. cbn. rewrite HF. reflexivity.
Qed.

(** C10.  For an identity without a [functions] field the payload of the
    issued token has no [functions] claim, and verifying the token (before
    it expires) returns claims that lack the field; it is not replaced by
    an empty list. *)
Theorem token_without_functions identity_ w1 w2 :
  Identity.functions identity_ = None ->
  floor_seconds (clock w2) < Claims.exp (newToken_payload (clock w1) identity_ None) ->
  Claims.functions (newToken_payload (clock w1) identity_ None) = None
  /\ exists tok claims,
       fst (newToken secret identity_ None w1) = Ret tok
       /\ fst (verifyToken secret tok w2) = Ret (Some claims)
       /\ Claims.functions claims = None
       /\ Claims.functions claims <> Some (JArr []).
Proof.
  intros HF Hexp.
  assert (E : Claims.functions (newToken_payload (clock w1) identity_ None) = None).
  { cbn. rewrite HF. reflexivity. }
  split; [exact E|].
  exists (jwt_sign (newToken_payload (clock w1) identity_ None) secret).
  exists (newToken_payload (clock w1) identity_ None).
  split; [reflexivity|]. split; [rewrite verifyToken_signed by exact Hexp; reflexivity|].
  split; [exact E|]. rewrite E. discriminate.
Qed.

(** *** The authorization header *)

Lemma take_while_all p s :
  forallb p (list_ascii_of_string s) = true -> take_while p s = s.
Proof.
  induction s as [|c r IH]; cbn; [reflexivity|].
  destruct (p c); cbn; [|discriminate]. intros H. rewrite IH by exact H. reflexivity.
Qed.

Lemma append_cons c r s : String c r ++ s = String c (r ++ s).
Proof. reflexivity. Qed.

Lemma strip_prefix_app pre s : strip_prefix pre (pre ++ s) = Some s.
Proof.
  induction pre as [|c r IH]; [destruct s; reflexivity|].
  rewrite append_cons. cbn [strip_prefix].
  rewrite Ascii.eqb_refl. exact IH.
Qed.

Lemma match_bearer_lowercase tok :
  String.eqb tok "" = false -> no_line_terminator tok = true ->
  match_bearer ("bearer " ++ tok) = Some tok.
Proof.
  intros Hne Hnl. unfold match_bearer. rewrite strip_prefix_app.
  rewrite take_while_all by exact Hnl. rewrite Hne. reflexivity.
Qed.

Lemma strip_prefix_other_scheme scheme rest :
  String.length scheme = 6%nat -> String.eqb scheme "bearer" = false ->
  strip_prefix "bearer " (scheme ++ " " ++ rest) = None.
Proof.
  intros Hlen Hne.
  destruct scheme as [|a1 [|a2 [|a3 [|a4 [|a5 [|a6 [|a7 r]]]]]]]; try discriminate.
  rewrite !append_cons. cbn [strip_prefix].
  repeat match goal with
         | |- context [Ascii.eqb ?x ?y] =>
             destruct (Ascii.eqb_spec x y); [subst|reflexivity]
         end.
  cbn in Hne. discriminate.
Qed.

(** C5 (as the code has it).  The scheme word is matched exactly: the
    lower-case word [bearer] followed by one space.  For a non-empty token
    without line terminators that [verifyToken] accepts, the header
    [bearer <token>] makes the middleware attach the decoded claims to the
    request; with any other six-letter spelling of the scheme word (such as
    [Bearer] or [BEARER]) the request is passed on as it came. *)
Theorem mw_verify_scheme_is_case_sensitive req w tok claims :
  String.eqb tok "" = false ->
  no_line_terminator tok = true ->
  fst (verifyToken secret tok w) = Ret (Some claims) ->
  fst (mw_verify secret (with_authorization ("bearer " ++ tok) req) w)
    = Ret (mkRequest (Some ("bearer " ++ tok)) (req_body req) (identityId req) (Some claims))
  /\ forall scheme,
       String.length scheme = 6%nat -> String.eqb scheme "bearer" = false ->
       fst (mw_verify secret (with_authorization (scheme ++ " " ++ tok) req) w)
         = Ret (with_authorization (scheme ++ " " ++ tok) req).
Proof.
  intros Hne Hnl Hv. split.
  - unfold mw_verify, with_authorization. unfold_M. cbn [authorization req_body identityId].
    change (negb (String.eqb ("bearer " ++ tok) "")) with true. cbv iota.
    rewrite match_bearer_lowercase by assumption.
    destruct (verifyToken secret tok w) as [[[c|]|e] w1]; cbn in Hv; try discriminate.
    injection Hv as ->. reflexivity.
  - intros scheme Hlen Hs. unfold mw_verify, with_authorization. unfold_M.
    cbn [authorization]. unfold match_bearer.
    rewrite strip_prefix_other_scheme by assumption.
    destruct (negb _); reflexivity.
Qed.

(** *** setIdentity *)

Lemma setIdentity_validated_throws details w cr a :
  fst (validateIdentitySpec password_module details None w) = Ret (Validated cr a) ->
  setIdentity password_module details w
    = (Throw (ReferenceError "name is not defined"), w).
Proof.
  intros H. unfold setIdentity. unfold_M.
  destruct (validateIdentitySpec password_module details None w) as [o w1] eqn:Hv.
  cbn in H. subst o. apply validateIdentitySpec_inv in Hv.
  destruct Hv as (-> & _ & _ & _ & Hex). cbn in Hex.
  destruct (identities w) as [|o r]; [discriminate|]. reflexivity.
Qed.

End Properties.

(** * Further properties of the module *)

Section MoreProperties.

Context {J : JwtLib}.
Variable password_module : Provider.t.
Variable uuid_source : nat -> string.
Variable secret : string.

(** ** setIdentity *)

(** X1.  [setIdentity] never updates anything: when validation throws or fails
    it hands that outcome on, and when validation passes it throws the
    ReferenceError; in every case the world is left as it was. *)
Theorem setIdentity_outcome details w :
  setIdentity password_module details w
  = match fst (validateIdentitySpec password_module details None w) with
    | Ret (Validated _ _) => (Throw (ReferenceError "name is not defined"), w)
    | o => (o, w)
    end.
Proof.
  pose proof (validateIdentitySpec_world password_module details None w) as Hw.
  destruct (fst (validateIdentitySpec password_module details None w)) as [r|e] eqn:Hf.
  - destruct r as [st rsn|cr a|pr|i| |pr t];
      try (unfold setIdentity; unfold_M;
           destruct (validateIdentitySpec password_module details None w) as [o w1];
           cbn in Hw, Hf; subst; reflexivity).
    eapply setIdentity_validated_throws. exact Hf.
  - unfold setIdentity. unfold_M.
    destruct (validateIdentitySpec password_module details None w) as [o w1].
    cbn in Hw, Hf. subst. reflexivity.
Qed.

(** ** validateIdentitySpec: the name *)

(** X2.  A name that is truthy but not a string (a number, [true], an array, an
    object) makes [validateIdentitySpec] throw a TypeError, and with it
    [addIdentity], [removeIdentity] and [authenticate]: the exception
    leaves the module. *)
Theorem non_string_name_throws details v w :
  member (Some details) "name" = Ret (Some v) ->
  truthy (Some v) = true ->
  (forall s, v <> JStr s) ->
  let e := TypeError "details.name.match is not a function" in
  (forall options, validateIdentitySpec password_module details options w = (Throw e, w))
  /\ addIdentity password_module uuid_source details w = (Throw e, w)
  /\ authenticate password_module secret details w = (Throw e, w)
  /\ removeIdentity password_module (Some v) w = (Throw e, w).
Proof.
  intros Hm Ht Hs e.
  assert (Hv : forall d options, member (Some d) "name" = Ret (Some v) ->
             validateIdentitySpec password_module d options w = (Throw e, w)).
  { intros d options Hd. unfold validateIdentitySpec. unfold_M. rewrite Hd, Ht. cbn.
    destruct v; try reflexivity. exfalso. eapply Hs. reflexivity. }
  split; [intros; apply Hv; exact Hm|].
  split; [unfold addIdentity; unfold_M; rewrite Hv by exact Hm; reflexivity|].
  split; [unfold authenticate; unfold_M; rewrite Hv by exact Hm; reflexivity|].
  unfold removeIdentity. unfold_M. rewrite Hv; reflexivity.
Qed.

(** X3.  The two ways the name check itself refuses a request, in every mode
    and whatever else the details hold: a missing or falsy name ([null],
    [false], [0], the empty string) is "No user specified."; a non-empty
    string is refused for its format only when not one of its characters
    belongs to the class.  The store is not consulted in either case. *)
Theorem name_check_rejections details v options w :
  member (Some details) "name" = Ret v ->
  (truthy v = false ->
   validateIdentitySpec password_module details options w
   = (Ret (Failure "requestError" "No user specified."), w))
  /\ (forall nm,
        v = Some (JStr nm) -> String.eqb nm "" = false ->
        existsb word_class (list_ascii_of_string nm) = false ->
        validateIdentitySpec password_module details options w
        = (Ret (Failure "requestError"
                  "Invalid name format (should match regex /[A-z0-9_\-.]+/)."), w)).
Proof.
  intros Hm. split.
  - intros Ht. unfold validateIdentitySpec. unfold_M. rewrite Hm, Ht. reflexivity.
  - intros nm -> Hne Hc. unfold validateIdentitySpec. unfold_M. rewrite Hm. cbn.
    rewrite Hne. cbn. unfold nameRegex, matches_class_plus. rewrite Hc. reflexivity.
Qed.

(** X4.  Existence: in creation mode a name already in the store is refused, in
    the other modes a name that is not in the store is refused. *)
Theorem existence_check details nm options w :
  member (Some details) "name" = Ret (Some (JStr nm)) ->
  nameRegex nm = true ->
  let newIdentity :=
    Options.newIdentity (match options with Some o => o | None => Options.empty end) in
  let present :=
    existsb (fun o => String.eqb (Identity.name o) nm) (identities w) in
  (newIdentity = true -> present = true ->
   validateIdentitySpec password_module details options w
   = (Ret (Failure "requestError" "Identity name already in use."), w))
  /\ (newIdentity = false -> present = false ->
      validateIdentitySpec password_module details options w
      = (Ret (Failure "requestError" "No such user."), w)).
Proof.
  intros Hm Hre newIdentity present.
  assert (Hne : String.eqb nm "" = false).
  { destruct nm; [discriminate Hre|reflexivity]. }
  split; intros Hn Hp; subst newIdentity present;
    unfold validateIdentitySpec; unfold_M; rewrite Hm; cbn; rewrite Hne; cbn;
    rewrite Hre; cbn; rewrite findIndex_absent, Hn, Hp; reflexivity.
Qed.

(** ** validateIdentitySpec: the stages after the name *)

Lemma validateIdentitySpec_name_ok details nm options w :
  member (Some details) "name" = Ret (Some (JStr nm)) ->
  nameRegex nm = true ->
  existsb (fun o => String.eqb (Identity.name o) nm) (identities w)
    = negb (Options.newIdentity (match options with Some o => o | None => Options.empty end)) ->
  validateIdentitySpec password_module details options w
  = validate_authentication password_module details
      (match options with Some o => o | None => Options.empty end) nm w.
Proof.
  intros Hm Hre Hp.
  assert (Hne : String.eqb nm "" = false).
  { destruct nm; [discriminate Hre|reflexivity]. }
  unfold validateIdentitySpec. unfold_M. rewrite Hm.
  cbn -[validate_authentication nameRegex findIndex]. rewrite Hne.
  cbn -[validate_authentication nameRegex findIndex]. rewrite Hre.
  cbn -[validate_authentication nameRegex findIndex]. rewrite findIndex_absent, Hp.
  destruct (Options.newIdentity _); reflexivity.
Qed.

Lemma index_key_matches_functionRegex n : functionRegex (string_of_nat n) = true.
Proof.
  unfold string_of_nat. destruct (Nat.to_uint n); reflexivity.
Qed.

Lemma array_keys_all_well_formed {A} (fs : list A) :
  List.filter (fun f => negb (functionRegex f)) (array_keys fs) = [].
Proof.
  unfold array_keys. generalize (seq 0 (List.length fs)). intros l.
  induction l as [|n r IH]; cbn; [reflexivity|].
  rewrite index_key_matches_functionRegex. exact IH.
Qed.

Lemma filter_length_pos {A} (p : A -> bool) (l : list A) :
  (0 <? Z.of_nat (List.length (List.filter p l))) = existsb p l.
Proof.
  induction l as [|x r IH]; cbn; [reflexivity|].
  destruct (p x); cbn [List.length orb]; [|exact IH].
  apply Z.ltb_lt. lia.
Qed.

Lemma validate_functions_array details options nm ca at_ fs w :
  member (Some details) "functions" = Ret (Some (JArr fs)) ->
  validate_functions details options nm ca at_ w
  = (Ret (match Options.validFunctions options with
          | Some vf =>
              if forallb (includes vf) (array_keys fs)
              then Validated (Identity.mk None nm ca (Some (JArr fs))) at_
              else Failure "requestError"
                     ("Invalid functions named: "
                        ++ String.concat ", "
                             (List.filter (fun f => negb (includes vf f)) (array_keys fs)))
          | None => Validated (Identity.mk None nm ca (Some (JArr fs))) at_
          end), w).
Proof.
  intros Hf. unfold validate_functions. unfold_M. rewrite Hf. cbn.
  rewrite array_keys_all_well_formed. cbn.
  destruct (Options.validFunctions options) as [vf|]; [|reflexivity].
  rewrite filter_length_pos.
  assert (E : existsb (fun f => negb (includes vf f)) (array_keys fs)
              = negb (forallb (includes vf) (array_keys fs))).
  { induction (array_keys fs) as [|k r IH]; cbn; [reflexivity|].
    rewrite IH. destruct (includes vf k); reflexivity. }
  rewrite E. destruct (forallb (includes vf) (array_keys fs)); reflexivity.
Qed.

(** X5.  The elements of a [functions] array are never looked at.  For an
    existing identity and details without credentials, any array is
    accepted and copied into the clean record when no allow-list is given:
    the loop of the format check runs over the indices, which always match
    the pattern. *)
Theorem functions_elements_unchecked details nm fs w :
  member (Some details) "name" = Ret (Some (JStr nm)) ->
  nameRegex nm = true ->
  existsb (fun o => String.eqb (Identity.name o) nm) (identities w) = true ->
  member (Some details) "auth" = Ret None ->
  member (Some details) "functions" = Ret (Some (JArr fs)) ->
  validateIdentitySpec password_module details None w
  = (Ret (Validated (Identity.mk None nm None (Some (JArr fs))) None), w).
Proof.
  intros Hm Hre Hp Ha Hf.
  rewrite (validateIdentitySpec_name_ok details nm None w Hm Hre) by exact Hp.
  unfold validate_authentication. unfold_M. rewrite Ha. cbn -[validate_functions].
  rewrite (validate_functions_array _ _ _ _ _ fs) by exact Hf. reflexivity.
Qed.

(** X6.  With an allow-list, what is compared with it is the array's indices:
    the request is accepted exactly when every index string ["0"], ["1"],
    ... of the functions array is a member of [validFunctions], whatever
    the function names are. *)
Theorem allow_list_compares_indices details nm fs vf newIdentity w :
  member (Some details) "name" = Ret (Some (JStr nm)) ->
  nameRegex nm = true ->
  existsb (fun o => String.eqb (Identity.name o) nm) (identities w) = true ->
  member (Some details) "auth" = Ret None ->
  member (Some details) "functions" = Ret (Some (JArr fs)) ->
  newIdentity = false ->
  let r := fst (validateIdentitySpec password_module details
                  (Some (Options.mk newIdentity (Some vf))) w) in
  (forallb (includes vf) (array_keys fs) = true ->
   r = Ret (Validated (Identity.mk None nm None (Some (JArr fs))) None))
  /\ (forallb (includes vf) (array_keys fs) = false ->
      exists rsn, r = Ret (Failure "requestError" rsn)).
Proof.
  intros Hm Hre Hp Ha Hf -> r. subst r.
  rewrite (validateIdentitySpec_name_ok details nm _ w Hm Hre) by exact Hp.
  unfold validate_authentication. unfold_M. rewrite Ha. cbn -[validate_functions].
  rewrite (validate_functions_array _ _ _ _ _ fs) by exact Hf. cbn.
  split; intros ->; [reflexivity|eexists; reflexivity].
Qed.

(** X7.  A [functions] value that is falsy ([null], [0], [false], the empty
    string, or absent) counts as omitted and defaults to the empty list; a
    truthy value that is not an array is a request error. *)
Theorem functions_default_and_shape details nm f w :
  member (Some details) "name" = Ret (Some (JStr nm)) ->
  nameRegex nm = true ->
  existsb (fun o => String.eqb (Identity.name o) nm) (identities w) = true ->
  member (Some details) "auth" = Ret None ->
  member (Some details) "functions" = Ret f ->
  (forall fs, f <> Some (JArr fs)) ->
  validateIdentitySpec password_module details None w
  = (Ret (if truthy f
          then Failure "requestError" "Functions not specified as an array."
          else Validated (Identity.mk None nm None (Some (JArr []))) None), w).
Proof.
  intros Hm Hre Hp Ha Hf Hna.
  rewrite (validateIdentitySpec_name_ok details nm None w Hm Hre) by exact Hp.
  unfold validate_authentication. unfold_M. rewrite Ha. cbn -[validate_functions].
  unfold validate_functions. unfold_M. rewrite Hf.
  destruct f as [[| | | |fs|]|]; cbn; try reflexivity.
  - destruct b; reflexivity.
  - destruct (z =? 0); reflexivity.
  - destruct (String.eqb s ""); reflexivity.
  - exfalso. eapply Hna. reflexivity.
Qed.

(** ** validateIdentitySpec: the credentials *)

(** X8.  Creating an identity requires credentials: in creation mode, with a
    well-formed name that is free, details whose [auth] is absent or falsy
    are a request error. *)
Theorem creation_requires_credentials details nm a vf w :
  member (Some details) "name" = Ret (Some (JStr nm)) ->
  nameRegex nm = true ->
  existsb (fun o => String.eqb (Identity.name o) nm) (identities w) = false ->
  member (Some details) "auth" = Ret a ->
  truthy a = false ->
  validateIdentitySpec password_module details (Some (Options.mk true vf)) w
  = (Ret (Failure "requestError"
            "No athentication details specified for new identity."), w).
Proof.
  intros Hm Hre Hp Ha Ht.
  rewrite (validateIdentitySpec_name_ok details nm _ w Hm Hre) by exact Hp.
  unfold validate_authentication. unfold_M. rewrite Ha.
  cbn -[truthy]. rewrite Ht. reflexivity.
Qed.


(** X10.  What the provider's [validate] answers decides the rest: a result
    whose state is not ['success'] is returned as it is, and an exception
    thrown by [validate] is not caught: it leaves [validateIdentitySpec]
    and [addIdentity] alike.  The store is untouched. *)
Theorem provider_validate_outcome details nm a ty at_ validate commit w :
  member (Some details) "name" = Ret (Some (JStr nm)) ->
  nameRegex nm = true ->
  existsb (fun o => String.eqb (Identity.name o) nm) (identities w) = false ->
  member (Some details) "auth" = Ret (Some a) ->
  truthy (Some a) = true ->
  member (Some a) "type" = Ret ty ->
  truthy ty = true ->
  authTypes password_module ty = Some at_ ->
  Provider.validate at_ = Some validate ->
  Provider.commit at_ = Some commit ->
  (forall r, validate a = Ret r -> String.eqb (pr_state r) "success" = false ->
     addIdentity password_module uuid_source details w = (Ret (FromProvider r), w))
  /\ (forall e, validate a = Throw e ->
       addIdentity password_module uuid_source details w = (Throw e, w)).
Proof.
  intros Hm Hre Hp Ha Hta Hty Htt Hat Hv Hc.
  assert (E : validateIdentitySpec password_module details (Some (Options.mk true None)) w
              = match validate a with
                | Ret r =>
                    if negb (String.eqb (pr_state r) "success") then (Ret (FromProvider r), w)
                    else validate_functions details (Options.mk true None) nm
                           (pr_cleanRecord r) (Some at_) w
                | Throw e => (Throw e, w)
                end).
  { rewrite (validateIdentitySpec_name_ok details nm _ w Hm Hre) by exact Hp.
    unfold validate_authentication. unfold_M. rewrite Ha.
    cbn -[truthy member authTypes validate_functions]. rewrite Hta, Hty.
    cbn -[truthy member authTypes validate_functions]. rewrite Htt, Hat, Hv, Hc.
    cbn -[validate_functions]. destruct (validate a) as [r|e]; [|reflexivity].
    cbn -[validate_functions]. destruct (negb _); reflexivity. }
  split.
  - intros r Hr Hs. unfold addIdentity. unfold_M. rewrite E, Hr, Hs. reflexivity.
  - intros e He. unfold addIdentity. unfold_M. rewrite E, He. reflexivity.
Qed.

(** ** addIdentity *)

Lemma validate_authentication_credentials details options nm w :
  match fst (validate_authentication password_module details options nm w) with
  | Ret (Validated cr (Some at_)) =>
      exists a ty validate rv,
        member (Some details) "auth" = Ret (Some a)
        /\ member (Some a) "type" = Ret ty
        /\ authTypes password_module ty = Some at_
        /\ Provider.validate at_ = Some validate
        /\ validate a = Ret rv
        /\ pr_state rv = "success"
        /\ Identity.auth cr = pr_cleanRecord rv
  | Ret (Validated cr None) =>
      Identity.auth cr = None /\ Options.newIdentity options = false
  | _ => True
  end.
Proof.
  unfold validate_authentication. unfold_M.
  destruct (member (Some details) "auth") as [dauth|] eqn:Ha; [|exact I].
  destruct (Options.newIdentity options && negb (truthy dauth))%bool eqn:E1; [exact I|].
  destruct (truthy dauth) eqn:Ht.
  - destruct (member dauth "type") as [ty|] eqn:Hty; [|exact I].
    destruct (negb (truthy ty)); [exact I|].
    destruct (authTypes password_module ty) as [at_|] eqn:Hat; [|exact I].
    destruct (Provider.validate at_) as [validate|] eqn:Hv; [|exact I].
    destruct (Provider.commit at_) as [commit|] eqn:Hc; [|exact I].
    destruct dauth as [a|]; [|exact I].
    destruct (validate a) as [rv|] eqn:Hr; [|exact I].
    destruct (negb (String.eqb (pr_state rv) "success")) eqn:Hs; [exact I|].
    pose proof (validate_functions_spec details options nm (pr_cleanRecord rv) (Some at_) w) as Hf.
    destruct (fst (validate_functions details options nm (pr_cleanRecord rv) (Some at_) w))
      as [[]|]; try exact I.
    destruct Hf as (_ & _ & Hauth & ->).
    exists a, ty, validate, rv. repeat split; auto.
    apply negb_false_iff, String.eqb_eq in Hs. exact Hs.
  - pose proof (validate_functions_spec details options nm None None w) as Hf.
    destruct (fst (validate_functions details options nm None None w)) as [[]|]; try exact I.
    destruct Hf as (_ & _ & Hauth & ->). split; [exact Hauth|].
    rewrite andb_true_r in E1. exact E1.
Qed.

Lemma validate_functions_not_success details options nm ca at_ w :
  match fst (validate_functions details options nm ca at_ w) with
  | Ret r => pass r = true \/ state r <> "success"
  | Throw _ => True
  end.
Proof.
  unfold validate_functions. unfold_M.
  repeat (break_match; cbn [snd fst]); cbn; auto; right; discriminate.
Qed.

Lemma validateIdentitySpec_not_success details options w :
  match fst (validateIdentitySpec password_module details options w) with
  | Ret r => pass r = true \/ state r <> "success"
  | Throw _ => True
  end.
Proof.
  unfold validateIdentitySpec, validate_authentication. unfold_M.
  repeat first
    [ exact I
    | apply validate_functions_not_success
    | match goal with
      | |- _ \/ state (Failure _ _) <> _ => right; discriminate
      | H : negb (String.eqb (pr_state ?r) "success") = true
        |- _ \/ state (FromProvider ?r) <> _ =>
          right; cbn; intros E; rewrite E in H; discriminate
      end
    | break_match; cbn [fst snd] ].
Qed.

Lemma addIdentity_cases details w :
  identities (snd (addIdentity password_module uuid_source details w)) = identities w
  /\ (forall r, fst (addIdentity password_module uuid_source details w) = Ret r ->
                state r <> "success")
  \/ exists cr at_ commit rc,
       validateIdentitySpec password_module details creation w
         = (Ret (Validated cr (Some at_)), w)
       /\ Provider.commit at_ = Some commit
       /\ commit (Identity.auth cr) = Ret rc
       /\ addIdentity password_module uuid_source details w
          = (let record := Identity.mk (Some (uuid_source (uuids_drawn w)))
                             (Identity.name cr) (pr_commitRecord rc)
                             (Identity.functions cr) in
             (Ret (IdentityResult record),
              mkWorld (identities w ++ [record]) (S (uuids_drawn w)) (clock w))).
Proof.
  pose proof (validateIdentitySpec_world password_module details creation w) as Hw.
  pose proof (validateIdentitySpec_not_success details creation w) as Hns.
  unfold addIdentity. fold creation. unfold_M.
  destruct (validateIdentitySpec password_module details creation w) as [[r|e] w1];
    cbn in Hw, Hns; subst w1; [|left; split; [reflexivity|discriminate]].
  destruct r as [st rsn|cr a|pr|i| |pr t];
    try (left; split; [reflexivity|];
         intros r [= <-]; destruct Hns as [Hp|Hs]; [discriminate Hp|exact Hs]).
  unfold uuidv4, addIdentity_commit, push_identity. unfold_M.
  destruct a as [at_|]; cbn; [|left; split; [reflexivity|intros r [= <-]; discriminate]].
  destruct (Provider.commit at_) as [commit|] eqn:Hc; cbn;
    [|left; split; [reflexivity|intros r [= <-]; discriminate]].
  destruct (commit (Identity.auth cr)) as [rc|e] eqn:Hrc; cbn;
    [|left; split; [reflexivity|intros r [= <-]; discriminate]].
  destruct (negb (pr_state rc =? "success")%string) eqn:Hs; cbn.
  - left. split; [reflexivity|]. intros r [= <-]. cbn. intros E. rewrite E in Hs. discriminate.
  - right. exists cr, at_, commit, rc. repeat split; auto.
Qed.

(** X11.  A successful [addIdentity] appends exactly one record, at the end of
    the store.  The record has a freshly drawn uuid as [id] and the name
    given in the details, which no earlier record carries; its [auth] is
    what the provider's [commit] returned for the record that the
    provider's [validate] had cleaned, never the raw [details.auth]. *)
Theorem addIdentity_success_record details w r w' :
  addIdentity password_module uuid_source details w = (Ret r, w') ->
  state r = "success" ->
  exists record a ty at_ validate commit rv rc,
    r = IdentityResult record
    /\ w' = mkWorld (identities w ++ [record]) (S (uuids_drawn w)) (clock w)
    /\ Identity.id record = Some (uuid_source (uuids_drawn w))
    /\ member (Some details) "name" = Ret (Some (JStr (Identity.name record)))
    /\ occurrences (Identity.name record) (identities w) = 0%nat
    /\ member (Some details) "auth" = Ret (Some a)
    /\ member (Some a) "type" = Ret ty
    /\ authTypes password_module ty = Some at_
    /\ Provider.validate at_ = Some validate
    /\ Provider.commit at_ = Some commit
    /\ validate a = Ret rv
    /\ commit (pr_cleanRecord rv) = Ret rc
    /\ Identity.auth record = pr_commitRecord rc.
Proof.
  intros Hadd Hst.
  destruct (addIdentity_cases details w) as [[_ Hns]|(cr & at_ & commit & rc & Hv & Hc & Hrc & E)].
  { rewrite Hadd in Hns. exfalso. apply (Hns r); [reflexivity|exact Hst]. }
  rewrite Hadd in E. cbv zeta in E. injection E as -> ->.
  pose proof Hv as Hv'. apply validateIdentitySpec_inv in Hv'.
  destruct Hv' as (_ & Hm & _ & Hre & Hex). cbn in Hex.
  pose proof (validate_authentication_credentials details (Options.mk true None)
                (Identity.name cr) w) as Hcred.
  pose proof (validateIdentitySpec_name_ok details (Identity.name cr) creation w Hm Hre Hex)
    as Hn.
  unfold creation in Hn, Hv. cbv iota in Hn. rewrite <- Hn, Hv in Hcred. cbn in Hcred.
  destruct Hcred as (a & ty & validate & rv & Ha & Hty & Hat & Hval & Hrv & _ & Hauth).
  rewrite Hauth in Hrc.
  eexists _, a, ty, at_, validate, commit, rv, rc.
  repeat split; eauto. cbn. apply occurrences_absent. exact Hex.
Qed.

(** X12.  Add-or-nothing: whenever [addIdentity] throws, or returns a result
    whose state is not ['success'], the identities store is the one before
    the call. *)
Theorem addIdentity_failure_leaves_store details w :
  (forall e, fst (addIdentity password_module uuid_source details w) = Throw e ->
     identities (snd (addIdentity password_module uuid_source details w)) = identities w)
  /\ (forall r, fst (addIdentity password_module uuid_source details w) = Ret r ->
        state r <> "success" ->
        identities (snd (addIdentity password_module uuid_source details w)) = identities w).
Proof.
  destruct (addIdentity_cases details w)
    as [[Hid _]|(cr & at_ & commit & rc & _ & _ & _ & E)].
  - split; intros; exact Hid.
  - rewrite E. cbv zeta. cbn. split; [discriminate|].
    intros r [= <-] Hs. exfalso. apply Hs. reflexivity.
Qed.

(** ** removeIdentity *)

Lemma findIndex_from_found {A} (p : A -> bool) (l : list A) (k : Z) :
  existsb p l = true ->
  k <= findIndex_from p l k < k + Z.of_nat (List.length l)
  /\ remove_at (Z.to_nat (findIndex_from p l k - k)) l = remove_first p l.
Proof.
  revert k. induction l as [|x r IH]; intros k H; [discriminate|].
  cbn [findIndex_from remove_first existsb List.length] in *.
  destruct (p x).
  - split; [lia|]. replace (k - k) with 0 by lia. reflexivity.
  - cbn in H. destruct (IH (k + 1) H) as (Hb & Hr). split; [lia|].
    replace (Z.to_nat (findIndex_from p r (k + 1) - k))
      with (S (Z.to_nat (findIndex_from p r (k + 1) - (k + 1)))) by lia.
    cbn [remove_at]. rewrite Hr. reflexivity.
Qed.

Lemma splice1_findIndex {A} (p : A -> bool) (l : list A) :
  existsb p l = true -> splice1 (findIndex p l) l = remove_first p l.
Proof.
  intros H. destruct (findIndex_from_found p l 0 H) as (Hb & Hr).
  unfold splice1, findIndex in *.
  destruct (findIndex_from p l 0 <? 0) eqn:E; [apply Z.ltb_lt in E; lia|].
  rewrite Z.min_l by lia. rewrite Z.sub_0_r in Hr. exact Hr.
Qed.

Lemma validateIdentitySpec_name_only nm w :
  nameRegex nm = true ->
  validateIdentitySpec password_module (JObj [("name", JStr nm)]) None w
  = (Ret (if existsb (fun o => String.eqb (Identity.name o) nm) (identities w)
          then Validated (Identity.mk None nm None (Some (JArr []))) None
          else Failure "requestError" "No such user."), w).
Proof.
  intros Hre.
  assert (Hne : String.eqb nm "" = false).
  { destruct nm; [discriminate Hre|reflexivity]. }
  destruct (existsb (fun o => String.eqb (Identity.name o) nm) (identities w)) eqn:Hp.
  - rewrite (validateIdentitySpec_name_ok _ nm None w); [reflexivity|reflexivity|exact Hre|exact Hp].
  - unfold validateIdentitySpec. unfold_M.
    cbn -[nameRegex findIndex]. rewrite Hne. cbn -[nameRegex findIndex]. rewrite Hre.
    cbn -[nameRegex findIndex]. rewrite findIndex_absent, Hp. reflexivity.
Qed.

Lemma removeIdentity_string nm w :
  nameRegex nm = true ->
  removeIdentity password_module (Some (JStr nm)) w
  = if existsb (fun o => String.eqb (Identity.name o) nm) (identities w)
    then (Ret Success,
          mkWorld (remove_first (fun o => String.eqb (Identity.name o) nm) (identities w))
                  (uuids_drawn w) (clock w))
    else (Ret (Failure "requestError" "No such user."), w).
Proof.
  intros Hre. unfold removeIdentity. unfold_M.
  rewrite (validateIdentitySpec_name_only nm w Hre).
  destruct (existsb (fun o => String.eqb (Identity.name o) nm) (identities w)) eqn:Hp;
    [|reflexivity].
  unfold set_identities. unfold_M. cbn -[splice1 findIndex].
  change (fun o => loose_eq_string (Identity.name o) (Some (JStr nm)))
    with (fun o => String.eqb (Identity.name o) nm).
  rewrite splice1_findIndex by exact Hp. reflexivity.
Qed.

Lemma occurrences_remove_first nm n l :
  occurrences n (remove_first (fun o => String.eqb (Identity.name o) nm) l)
  = if String.eqb n nm then Nat.pred (occurrences n l) else occurrences n l.
Proof.
  unfold occurrences. induction l as [|x r IH]; cbn [remove_first List.filter List.length].
  - destruct (String.eqb n nm); reflexivity.
  - destruct (String.eqb (Identity.name x) nm) eqn:E1.
    + apply String.eqb_eq in E1. rewrite E1.
      destruct (String.eqb n nm) eqn:E2.
      * apply String.eqb_eq in E2. subst n. rewrite String.eqb_refl. reflexivity.
      * rewrite String.eqb_sym, E2. reflexivity.
    + cbn [List.filter]. destruct (String.eqb (Identity.name x) n) eqn:E3; cbn [List.length].
      * apply String.eqb_eq in E3. subst n. rewrite E1 in *. rewrite IH. reflexivity.
      * exact IH.
Qed.

(** X13.  [removeIdentity] of a well-formed name: when no record has the name the
    call is refused and nothing changes; otherwise the first record of
    that name, and only that one, leaves the store: the count of the name
    drops by one and the records of every other name are kept. *)
Theorem removeIdentity_by_name nm w :
  nameRegex nm = true ->
  let present := existsb (fun o => String.eqb (Identity.name o) nm) (identities w) in
  let after := snd (removeIdentity password_module (Some (JStr nm)) w) in
  (present = false ->
   removeIdentity password_module (Some (JStr nm)) w
   = (Ret (Failure "requestError" "No such user."), w))
  /\ (present = true ->
      fst (removeIdentity password_module (Some (JStr nm)) w) = Ret Success
      /\ S (occurrences nm (identities after)) = occurrences nm (identities w)
      /\ (forall n, n <> nm ->
            occurrences n (identities after) = occurrences n (identities w))
      /\ S (List.length (identities after)) = List.length (identities w)).
Proof.
  intros Hre present after. subst present after.
  rewrite (removeIdentity_string nm w Hre).
  destruct (existsb (fun o => String.eqb (Identity.name o) nm) (identities w)) eqn:Hp.
  - split; [discriminate|]. intros _. cbn [fst snd identities].
    split; [reflexivity|]. split; [|split].
    + rewrite occurrences_remove_first, String.eqb_refl.
      assert (0 < occurrences nm (identities w))%nat; [|lia].
      clear -Hp. unfold occurrences. induction (identities w) as [|x r IH]; [discriminate|].
      cbn in *. destruct (String.eqb (Identity.name x) nm); cbn; [lia|auto].
    + intros n Hn. rewrite occurrences_remove_first.
      apply String.eqb_neq in Hn. rewrite Hn. reflexivity.
    + clear -Hp. induction (identities w) as [|x r IH]; [discriminate|].
      cbn in *. destruct (String.eqb (Identity.name x) nm); cbn; [reflexivity|].
      rewrite IH by exact Hp. reflexivity.
  - split; [reflexivity|discriminate].
Qed.

(** ** Tokens *)

Lemma round_seconds_add now k : round_seconds (now + 1000 * k) = round_seconds now + k.
Proof.
  unfold round_seconds.
  replace (now + 1000 * k + 500) with (now + 500 + k * 1000) by lia.
  apply Z.div_add. lia.
Qed.

(** X14.  The lifetime of a token: [exp] is [iat] plus 1800 seconds by default,
    and [iat] plus [k] seconds for a duration of [k] whole seconds. *)
Theorem token_lifetime now identity_ k :
  let default_ := newToken_payload now identity_ None in
  let timed := newToken_payload now identity_ (Some (TokenOptions.mk (Some (1000 * k)))) in
  Claims.exp default_ = Claims.iat default_ + 1800
  /\ Claims.exp timed = Claims.iat timed + k
  /\ Claims.iat timed = Claims.iat default_.
Proof.
  cbn. split; [|split; [|reflexivity]].
  - change (30 * 60 * 1000) with (1000 * 1800). apply round_seconds_add.
  - apply round_seconds_add.
Qed.

(** X15.  The expiry boundary: a token issued by [newToken] verifies as long as
    the clock, in whole seconds, is below its [exp] claim, and from the
    second [exp] on [verifyToken] returns null. *)
Theorem token_expiry_boundary identity_ options w1 w2 :
  let p := newToken_payload (clock w1) identity_ options in
  fst (newToken secret identity_ options w1) = Ret (jwt_sign p secret)
  /\ (floor_seconds (clock w2) < Claims.exp p ->
      fst (verifyToken secret (jwt_sign p secret) w2) = Ret (Some p))
  /\ (Claims.exp p <= floor_seconds (clock w2) ->
      fst (verifyToken secret (jwt_sign p secret) w2) = Ret None).
Proof.
  intros p. split; [reflexivity|]. split; intros H.
  - rewrite (verifyToken_signed secret p w2 H). reflexivity.
  - unfold verifyToken. unfold_M. rewrite jwt_verify_sign.
    apply Z.ltb_ge in H. rewrite H. reflexivity.
Qed.

Lemma verifyToken_cases tok w :
  exists r,
    verifyToken secret tok w = (Ret r, w)
    /\ forall c, r = Some c ->
         jwt_verify tok secret (floor_seconds (clock w)) = Ret c
         /\ floor_seconds (clock w) < Claims.exp c.
Proof.
  unfold verifyToken. unfold_M.
  destruct (jwt_verify tok secret (floor_seconds (clock w))) as [p|e] eqn:Hv.
  - destruct (jwt_verify_sound _ _ _ _ Hv) as (Hd & Hlt).
    exists (jwt_decode tok). split; [reflexivity|].
    intros c Hc. rewrite Hd in Hc. injection Hc as <-. split; [reflexivity|exact Hlt].
  - exists None. split; [reflexivity|]. discriminate.
Qed.

(** X16.  [verifyToken] never throws and never touches the world: it
    returns the claims exactly when [jwt.verify] accepts the token under
    the module's secret at the current clock, and null whenever that call
    throws.  Claims it returns have their [exp] ahead of the clock. *)
Theorem verifyToken_total_and_sound tok w :
  verifyToken secret tok w
  = (Ret (match jwt_verify tok secret (floor_seconds (clock w)) with
          | Ret c => Some c
          | Throw _ => None
          end), w)
  /\ forall c, fst (verifyToken secret tok w) = Ret (Some c) ->
       floor_seconds (clock w) < Claims.exp c.
Proof.
  unfold verifyToken. unfold_M.
  destruct (jwt_verify tok secret (floor_seconds (clock w))) as [p|e] eqn:Hv; cbn.
  - destruct (jwt_verify_sound _ _ _ _ Hv) as (Hd & Hlt). rewrite Hd.
    split; [reflexivity|]. intros c [= <-]. exact Hlt.
  - split; [reflexivity|]. discriminate.
Qed.

Lemma apply_op_clock op w : clock (apply_op password_module uuid_source op w) = clock w.
Proof.
  destruct op as [details|nm]; cbn [apply_op].
  - destruct (addIdentity_cases details w) as [[_ _]|(cr & at_ & commit & rc & _ & _ & _ & E)].
    + unfold addIdentity. unfold_M.
      pose proof (validateIdentitySpec_world password_module details
                    (Some (Options.mk true None)) w) as Hw.
      destruct (validateIdentitySpec password_module details
                  (Some (Options.mk true None)) w) as [[r|e] w1]; cbn in Hw; subst w1;
        [|reflexivity].
      destruct r; try reflexivity.
      unfold uuidv4, addIdentity_commit, push_identity. unfold_M.
      repeat first [reflexivity | break_match; cbn [fst snd clock] in *
                   | match goal with H : (_, _) = (_, _) |- _ =>
                       inversion H; subst; clear H end].
    + rewrite E. reflexivity.
  - unfold removeIdentity. unfold_M.
    match goal with
    | |- context [validateIdentitySpec password_module ?d None w] =>
        pose proof (validateIdentitySpec_world password_module d None w) as Hw;
        destruct (validateIdentitySpec password_module d None w) as [[r|e] w1]
    end; cbn in Hw; subst w1; [|reflexivity].
    destruct (negb (pass r)); reflexivity.
Qed.

(** X17.  Tokens are self-contained: [verifyToken] reads the clock and never the
    store, so no sequence of [addIdentity] and [removeIdentity] calls
    changes its answer for a token; removing an identity does not revoke
    the tokens issued for it. *)
Theorem tokens_outlive_store_changes ops tok w :
  fst (verifyToken secret tok (run_ops password_module uuid_source ops w))
  = fst (verifyToken secret tok w).
Proof.
  assert (Hc : clock (run_ops password_module uuid_source ops w) = clock w).
  { unfold run_ops. revert w. induction ops as [|op ops IH]; intros w; [reflexivity|].
    cbn [fold_left]. rewrite IH. apply apply_op_clock. }
  unfold verifyToken. unfold_M. rewrite Hc.
  destruct (jwt_verify tok secret (floor_seconds (clock w))); reflexivity.
Qed.

(** ** authenticate *)

Lemma index_findIndex_from {A} (p : A -> bool) (l : list A) (k : Z) x :
  0 <= k ->
  index l (findIndex_from p l k - k) = Some x -> findIndex_from p l k <> -1 ->
  p x = true /\ In x l.
Proof.
  revert k. induction l as [|y r IH]; intros k Hk Hi Hn; [cbn in Hn; lia|].
  cbn [findIndex_from] in *. destruct (p y) eqn:Hy.
  - replace (k - k) with 0 in Hi by lia. cbn in Hi. injection Hi as <-.
    split; [exact Hy|left; reflexivity].
  - assert (Hb : k + 1 <= findIndex_from p r (k + 1)).
    { destruct (existsb p r) eqn:He.
      - apply (findIndex_from_found p r (k + 1) He).
      - pose proof (findIndex_from_absent p r (k + 1) ltac:(lia)) as Ha.
        rewrite He in Ha. apply Z.eqb_eq in Ha. lia. }
    destruct (IH (k + 1) ltac:(lia)) as (Hp & Hin); [|exact Hn|split; [exact Hp|right; exact Hin]].
    unfold index in *.
    destruct (findIndex_from p r (k + 1) - k <? 0) eqn:E1; [discriminate|].
    destruct (findIndex_from p r (k + 1) - (k + 1) <? 0) eqn:E2; [apply Z.ltb_lt in E2; lia|].
    replace (Z.to_nat (findIndex_from p r (k + 1) - k))
      with (S (Z.to_nat (findIndex_from p r (k + 1) - (k + 1)))) in Hi by lia.
    exact Hi.
Qed.

Lemma index_findIndex {A} (p : A -> bool) (l : list A) x :
  index l (findIndex p l) = Some x -> p x = true /\ In x l.
Proof.
  intros H. unfold findIndex in *.
  apply (index_findIndex_from p l 0 x); [lia|rewrite Z.sub_0_r; exact H|].
  intros E. rewrite E in H. discriminate.
Qed.

Lemma validate_functions_no_token details options nm ca at_ w :
  match fst (validate_functions details options nm ca at_ w) with
  | Ret r => token r = None
  | Throw _ => True
  end.
Proof.
  unfold validate_functions. unfold_M.
  repeat (break_match; cbn [snd fst]); cbn; auto.
Qed.

Lemma validateIdentitySpec_no_token details options w :
  match fst (validateIdentitySpec password_module details options w) with
  | Ret r => token r = None
  | Throw _ => True
  end.
Proof.
  unfold validateIdentitySpec, validate_authentication. unfold_M.
  repeat first
    [ exact I
    | reflexivity
    | apply validate_functions_no_token
    | break_match; cbn [fst snd] ].
Qed.

Lemma index_findIndex_from_find {A} (p : A -> bool) (l : list A) (k : Z) :
  0 <= k -> index l (findIndex_from p l k - k) = List.find p l.
Proof.
  revert k. induction l as [|y r IH]; intros k Hk.
  - cbn. unfold index. destruct (-1 - k <? 0) eqn:E; [reflexivity|].
    apply Z.ltb_ge in E. lia.
  - cbn [findIndex_from List.find]. destruct (p y) eqn:Hy.
    + replace (k - k) with 0 by lia. reflexivity.
    + rewrite <- (IH (k + 1)) by lia. unfold index.
      destruct (existsb p r) eqn:He.
      * destruct (findIndex_from_found p r (k + 1) He) as (Hb & _).
        destruct (findIndex_from p r (k + 1) - k <? 0) eqn:E1; [apply Z.ltb_lt in E1; lia|].
        destruct (findIndex_from p r (k + 1) - (k + 1) <? 0) eqn:E2;
          [apply Z.ltb_lt in E2; lia|].
        replace (Z.to_nat (findIndex_from p r (k + 1) - k))
          with (S (Z.to_nat (findIndex_from p r (k + 1) - (k + 1)))) by lia.
        reflexivity.
      * pose proof (findIndex_from_absent p r (k + 1) ltac:(lia)) as Ha.
        rewrite He in Ha. apply Z.eqb_eq in Ha. rewrite Ha.
        destruct (-1 - k <? 0) eqn:E1; [|apply Z.ltb_ge in E1; lia].
        destruct (-1 - (k + 1) <? 0) eqn:E2; [|apply Z.ltb_ge in E2; lia].
        reflexivity.
Qed.

Lemma index_findIndex_find {A} (p : A -> bool) (l : list A) :
  index l (findIndex p l) = List.find p l.
Proof.
  unfold findIndex. rewrite <- (index_findIndex_from_find p l 0) by lia.
  rewrite Z.sub_0_r. reflexivity.
Qed.

(** X24.  Once the details have passed validation, the provider of the
    stored record decides: [authenticate] looks up the first record of
    that name, resolves the provider from the record's own [auth.type] and
    calls its [authenticate] with the stored credentials.  A provider
    result whose state is not ['success'] is returned as it is, without a
    token; on ['success'] the token for the stored record is added.  The
    endpoint then answers 200 with the token, 400 for ['requestError'] and
    403 for ['failed']. *)
Theorem authenticate_follows_provider details w cr a identity_ ty at_ pa pr h i au :
  validateIdentitySpec password_module details None w = (Ret (Validated cr a), w) ->
  List.find (fun o => String.eqb (Identity.name o) (Identity.name cr)) (identities w)
    = Some identity_ ->
  member (Identity.auth identity_) "type" = Ret ty ->
  authTypes password_module ty = Some at_ ->
  Provider.authenticate at_ = Some pa ->
  pa (Identity.auth identity_) details = Ret pr ->
  let tok := jwt_sign (newToken_payload (clock w) identity_ None) secret in
  let r := if String.eqb (pr_state pr) "success" then WithToken pr tok
           else FromProvider pr in
  authenticate password_module secret details w = (Ret r, w)
  /\ (String.eqb tok "" = false ->
      fst (post_authenticate password_module secret (mkRequest h (Some details) i au)
             fresh_response w)
      = Ret (mkResponse
               (if String.eqb (pr_state pr) "success" then 200
                else if String.eqb (pr_state pr) "requestError" then 400
                else if String.eqb (pr_state pr) "serverError" then 500
                else if String.eqb (pr_state pr) "failed" then 403
                else 200)
               (SentResult r))).
Proof.
  intros Hv Hfind Hty Hat Hpa Hpr tok r.
  assert (E : authenticate password_module secret details w = (Ret r, w)).
  { pose proof Hv as Hs. apply validateIdentitySpec_inv in Hs.
    destruct Hs as (_ & Hm & _ & _ & _).
    unfold authenticate. unfold_M. rewrite Hv. cbn [pass negb]. rewrite Hm. cbn [fst snd].
    change (fun o => loose_eq_string (Identity.name o) (Some (JStr (Identity.name cr))))
      with (fun o => String.eqb (Identity.name o) (Identity.name cr)).
    rewrite index_findIndex_find, Hfind, Hty. cbn [fst snd]. rewrite Hat, Hpa, Hpr.
    cbn [fst snd]. subst r. destruct (String.eqb (pr_state pr) "success"); reflexivity. }
  split; [exact E|].
  intros Htok. unfold post_authenticate. unfold_M. cbn [req_body]. rewrite E.
  subst r. destruct (String.eqb (pr_state pr) "success") eqn:Hs.
  - unfold truthy_token. cbn [token]. fold tok. rewrite Htok. reflexivity.
  - cbn. unfold post_authenticate_status.
    destruct (String.eqb (pr_state pr) "requestError"); [reflexivity|].
    destruct (String.eqb (pr_state pr) "serverError"); [reflexivity|].
    destruct (String.eqb (pr_state pr) "failed"); reflexivity.
Qed.

(** X18.  A token is issued only for a stored identity and only on success: when
    the result of [authenticate] carries a token, its state is
    ['success'], the details name an identity of the store, and the token
    is the signed payload built from that record at the current time; it
    verifies at once. *)
Theorem authenticate_token_for_stored_identity details w r t :
  fst (authenticate password_module secret details w) = Ret r ->
  token r = Some t ->
  state r = "success"
  /\ exists identity_,
       In identity_ (identities w)
       /\ member (Some details) "name" = Ret (Some (JStr (Identity.name identity_)))
       /\ t = jwt_sign (newToken_payload (clock w) identity_ None) secret
       /\ fst (verifyToken secret t w)
          = Ret (Some (newToken_payload (clock w) identity_ None)).
Proof.
  unfold authenticate. unfold_M.
  pose proof (validateIdentitySpec_world password_module details None w) as Hw.
  pose proof (validateIdentitySpec_spec password_module details None w) as Hs.
  pose proof (validateIdentitySpec_no_token details None w) as Hnt.
  destruct (validateIdentitySpec password_module details None w) as [[v|e] w1];
    cbn in Hw, Hs, Hnt; subst w1; [|discriminate].
  destruct v as [st rsn|cr a|pr|i| |pr t']; cbn [pass negb];
    try discriminate Hnt; try (intros [= <-]; discriminate).
  destruct Hs as (Hm & _ & _ & _). rewrite Hm. cbn [fst snd].
  change (fun o => loose_eq_string (Identity.name o) (Some (JStr (Identity.name cr))))
    with (fun o => String.eqb (Identity.name o) (Identity.name cr)).
  destruct (index (identities w)
              (findIndex (fun o => String.eqb (Identity.name o) (Identity.name cr))
                 (identities w))) as [identity_|] eqn:Hi; [|discriminate].
  apply index_findIndex in Hi. destruct Hi as (Hn & Hin). apply String.eqb_eq in Hn.
  destruct (member (Identity.auth identity_) "type") as [ty|]; [|discriminate].
  cbn [fst snd].
  destruct (authTypes password_module ty) as [at_|]; [|discriminate].
  destruct (Provider.authenticate at_) as [pa|]; [|discriminate].
  destruct (pa (Identity.auth identity_) details) as [pr|]; [|discriminate].
  cbn [fst snd].
  destruct (negb (String.eqb (pr_state pr) "success")) eqn:Hst; [intros [= <-]; discriminate|].
  unfold newToken. unfold_M. cbn [fst snd].
  intros [= <-] [= <-]. cbn [state].
  split; [apply negb_false_iff, String.eqb_eq in Hst; exact Hst|].
  exists identity_. split; [exact Hin|]. split; [rewrite Hn; reflexivity|].
  split; [reflexivity|].
  rewrite verifyToken_signed; [reflexivity|].
  cbn. unfold floor_seconds, round_seconds.
  apply Z.div_lt_upper_bound; [lia|].
  pose proof (Z.mul_div_le (clock w + 30 * 60 * 1000 + 500) 1000 ltac:(lia)).
  pose proof (Z.mod_pos_bound (clock w + 30 * 60 * 1000 + 500) 1000 ltac:(lia)).
  pose proof (Z.div_mod (clock w + 30 * 60 * 1000 + 500) 1000 ltac:(lia)).
  lia.
Qed.

(** ** The middleware and the guard *)

(** X19.  [mw_verify] never throws and never answers the request itself.  It
    changes nothing but [req.authenticated], and sets that only to claims
    that the library verified, with the module's secret and before their
    expiry, for the token found after the lower-case scheme word. *)
Theorem mw_verify_attaches_only_verified_claims req w :
  exists req',
    mw_verify secret req w = (Ret req', w)
    /\ authorization req' = authorization req
    /\ req_body req' = req_body req
    /\ identityId req' = identityId req
    /\ (authenticated req' = authenticated req
        \/ exists h tok c,
             authorization req = Some h
             /\ match_bearer h = Some tok
             /\ jwt_verify tok secret (floor_seconds (clock w)) = Ret c
             /\ floor_seconds (clock w) < Claims.exp c
             /\ authenticated req' = Some c).
Proof.
  unfold mw_verify. unfold_M.
  destruct (authorization req) as [h|] eqn:Hh;
    [|exists req; repeat split; auto].
  destruct (negb (String.eqb h "")); [|exists req; repeat split; auto].
  destruct (match_bearer h) as [tok|] eqn:Hb; [|exists req; repeat split; auto].
  destruct (verifyToken_cases tok w) as (r & -> & Hr).
  destruct r as [c|]; [|exists req; repeat split; auto].
  destruct (Hr c eq_refl) as (Hv & Hlt).
  eexists. split; [reflexivity|]. cbn. repeat split; auto.
  right. exists h, tok, c. repeat split; auto.
Qed.

(** X20.  The guard of the protected sub-tree: a request without claims, or with
    claims that have no [functions], is answered 403 with an empty body;
    with a [functions] array the request passes on exactly when the array
    contains the string [auth]. *)
Theorem guard_requires_auth_function h b i nm iat exp l res :
  require_auth_function (mkRequest h b i None) res = Ret (inl (forbidden res))
  /\ require_auth_function (mkRequest h b i (Some (Claims.mk nm iat exp None))) res
     = Ret (inl (forbidden res))
  /\ (In (JStr "auth") l ->
      require_auth_function (mkRequest h b i (Some (Claims.mk nm iat exp (Some (JArr l))))) res
      = Ret (inr tt))
  /\ (~ In (JStr "auth") l ->
      require_auth_function (mkRequest h b i (Some (Claims.mk nm iat exp (Some (JArr l))))) res
      = Ret (inl (forbidden res))).
Proof.
  split; [reflexivity|]. split; [reflexivity|].
  assert (E : existsb (fun e => match e with JStr s => String.eqb s "auth" | _ => false end) l
              = true <-> In (JStr "auth") l).
  { rewrite existsb_exists. split.
    - intros (x & Hin & Hx). destruct x; try discriminate.
      apply String.eqb_eq in Hx. subst. exact Hin.
    - intros Hin. exists (JStr "auth"). split; [exact Hin|reflexivity]. }
  unfold require_auth_function. cbn -[existsb].
  destruct (existsb _ l) eqn:He; split; intros H; try reflexivity.
  - exfalso. apply H, E. reflexivity.
  - apply E in H. discriminate.
Qed.

(** ** Endpoints *)

(** X21.  [POST {base}/user] answers 201, with an empty body, exactly when one
    record was appended to the store; every other answer (400 or 500)
    leaves the store as it was, and the endpoint throws only when
    [addIdentity] does. *)
Theorem post_user_status req res w :
  match post_user password_module uuid_source req res w with
  | (Ret res', w') =>
      (statusCode res' = 201 /\ body res' = Ended
       /\ exists record, identities w' = (identities w ++ [record])%list)
      \/ ((statusCode res' = 400 \/ statusCode res' = 500)
          /\ identities w' = identities w)
  | (Throw _, w') => identities w' = identities w
  end.
Proof.
  unfold post_user. unfold_M.
  destruct (req_body req) as [details|]; [|right; split; [left|]; reflexivity].
  destruct (negb (truthy (Some details))); [right; split; [left|]; reflexivity|].
  destruct (addIdentity_cases details w)
    as [[Hid Hns]|(cr & at_ & commit & rc & _ & _ & _ & E)].
  - destruct (addIdentity password_module uuid_source details w) as [[r|e] w']; cbn in *;
      [|exact Hid].
    specialize (Hns r eq_refl). apply String.eqb_neq in Hns. rewrite Hns.
    destruct (match_request_prefix (state r)); right; (split; [|exact Hid]);
      [left|right]; reflexivity.
  - rewrite E. cbv zeta. cbn. left. repeat split. eexists. reflexivity.
Qed.

Lemma removeIdentity_any_string nm w :
  removeIdentity password_module (Some (JStr nm)) w
  = (Ret Success,
     mkWorld (remove_first (fun o => String.eqb (Identity.name o) nm) (identities w))
             (uuids_drawn w) (clock w))
    /\ existsb (fun o => String.eqb (Identity.name o) nm) (identities w) = true
  \/ exists rsn,
       removeIdentity password_module (Some (JStr nm)) w
       = (Ret (Failure "requestError" rsn), w).
Proof.
  destruct (nameRegex nm) eqn:Hre.
  - rewrite (removeIdentity_string nm w Hre).
    destruct (existsb (fun o => String.eqb (Identity.name o) nm) (identities w));
      [left; split; reflexivity|right; eexists; reflexivity].
  - right. unfold removeIdentity, validateIdentitySpec. unfold_M.
    cbn -[nameRegex]. destruct (String.eqb nm ""); cbn -[nameRegex];
      [eexists; reflexivity|].
    rewrite Hre. eexists. reflexivity.
Qed.

(** X22.  [DELETE {base}/user/:identityId] never throws.  It answers 200 when a
    record whose name is the path segment existed, and then the first such
    record has left the store; otherwise it answers 400 with a request
    error and the world is as before. *)
Theorem delete_user_status req res w :
  let nm := identityId req in
  delete_user password_module req res w
  = (Ret (mkResponse 200 (SentResult Success)),
     mkWorld (remove_first (fun o => String.eqb (Identity.name o) nm) (identities w))
             (uuids_drawn w) (clock w))
    /\ existsb (fun o => String.eqb (Identity.name o) nm) (identities w) = true
  \/ exists rsn,
       delete_user password_module req res w
       = (Ret (mkResponse 400 (SentResult (Failure "requestError" rsn))), w).
Proof.
  intros nm. subst nm. unfold delete_user. unfold_M.
  destruct (removeIdentity_any_string (identityId req) w) as [[-> Hp]|(rsn & ->)].
  - left. split; [reflexivity|exact Hp].
  - right. exists rsn. reflexivity.
Qed.

(** X23.  [POST {base}] for a well-formed name that no record has: the request
    is answered 400 with "No such user."; no provider code runs and no
    token is issued. *)
Theorem post_authenticate_unknown_user h i a details nm res w :
  member (Some details) "name" = Ret (Some (JStr nm)) ->
  nameRegex nm = true ->
  existsb (fun o => String.eqb (Identity.name o) nm) (identities w) = false ->
  post_authenticate password_module secret (mkRequest h (Some details) i a) res w
  = (Ret (mkResponse 400 (SentResult (Failure "requestError" "No such user."))), w).
Proof.
  intros Hm Hre Hp.
  assert (Hne : String.eqb nm "" = false).
  { destruct nm; [discriminate Hre|reflexivity]. }
  assert (E : validateIdentitySpec password_module details None w
              = (Ret (Failure "requestError" "No such user."), w)).
  { unfold validateIdentitySpec. unfold_M. rewrite Hm.
    cbn -[nameRegex findIndex]. rewrite Hne. cbn -[nameRegex findIndex]. rewrite Hre.
    cbn -[nameRegex findIndex]. rewrite findIndex_absent, Hp. reflexivity. }
  unfold post_authenticate, authenticate. unfold_M. cbn [req_body]. rewrite E. reflexivity.
Qed.

End MoreProperties.

(** * Concrete runs *)

(** C1 at a provider whose [commit] throws. *)
Lemma addIdentity_commit_throw_atomic_witness :
  exists r w',
    addIdentity ReferencePassword.module_failing_commit reference_uuid bob_details
      (initial_world 0) = (Ret r, w')
    /\ state r = "serverAuthCommitFailed"
    /\ identities w' = identities (initial_world 0)
    /\ List.length (identities w') = List.length (identities (initial_world 0)).
Proof.
  eapply (addIdentity_commit_throw_atomic ReferencePassword.module_failing_commit
            reference_uuid bob_details (initial_world 0)).
  - vm_compute. reflexivity.
  - reflexivity.
  - reflexivity.
Defined.

(** C3 on a run that adds the same name twice and removes another. *)
Lemma store_names_stay_unique_witness :
  (occurrences "bob"
     (identities
        (run_ops ReferencePassword.module_ reference_uuid
           [OpAdd bob_details; OpAdd bob_details; OpRemove (Some (JStr "admin"))]
           (initial_world 0))) <= 1)%nat.
Proof.
  apply (store_names_stay_unique ReferencePassword.module_ reference_uuid
           [OpAdd bob_details; OpAdd bob_details; OpRemove (Some (JStr "admin"))]
           (initial_world 0)).
  reflexivity.
Defined.

(** C2 for the [admin] functions list, issued at second 1 and verified at
    second 2. *)
Lemma token_round_trip_witness :
  exists tok claims,
    fst (newToken (J := ReferenceJwtLaws.lib) reference_secret admin_identity None
           (initial_world 1000)) = Ret tok
    /\ fst (verifyToken (J := ReferenceJwtLaws.lib) reference_secret tok (initial_world 2000))
       = Ret (Some claims)
    /\ Claims.name claims = "admin"
    /\ Claims.functions claims = Some (JArr [JStr "auth"; JStr "api"]).
Proof.
  apply (token_round_trip (J := ReferenceJwtLaws.lib) reference_secret admin_identity
           [JStr "auth"; JStr "api"] (initial_world 1000) (initial_world 2000)).
  - reflexivity.
  - reflexivity.
Defined.

(** C10 for an identity record that has only a name. *)
Lemma token_without_functions_witness :
  Claims.functions
    (newToken_payload 1000 (Identity.mk None "guest" None None) None) = None
  /\ exists tok claims,
       fst (newToken (J := ReferenceJwtLaws.lib) reference_secret
              (Identity.mk None "guest" None None) None (initial_world 1000)) = Ret tok
       /\ fst (verifyToken (J := ReferenceJwtLaws.lib) reference_secret tok (initial_world 2000))
          = Ret (Some claims)
       /\ Claims.functions claims = None
       /\ Claims.functions claims <> Some (JArr []).
Proof.
  apply (token_without_functions (J := ReferenceJwtLaws.lib) reference_secret
           (Identity.mk None "guest" None None) (initial_world 1000) (initial_world 2000)).
  - reflexivity.
  - reflexivity.
Defined.

(** C4.  With [validFunctions = ["api"]] a request for [functions:
    ["admin"]] is refused, but the reason names the array index [0], not
    the function; a request for the allowed ["api"] is refused in the same
    way. *)
Theorem validFunctions_reason_names_index (password_module : Provider.t) (now : Z) :
  validateIdentitySpec password_module
    (JObj [("name", JStr "admin"); ("functions", JArr [JStr "admin"])])
    (Some (Options.mk false (Some ["api"%string]))) (initial_world now)
  = (Ret (Failure "requestError" "Invalid functions named: 0"), initial_world now)
  /\ validateIdentitySpec password_module
       (JObj [("name", JStr "admin"); ("functions", JArr [JStr "api"])])
       (Some (Options.mk false (Some ["api"%string]))) (initial_world now)
     = (Ret (Failure "requestError" "Invalid functions named: 0"), initial_world now).
Proof. split; reflexivity. Qed.

(** C6.  [setIdentity] for the existing identity [admin] throws a
    ReferenceError instead of returning a result object. *)
Theorem setIdentity_admin_throws (password_module : Provider.t) (now : Z) :
  setIdentity password_module (JObj [("name", JStr "admin")]) (initial_world now)
  = (Throw (ReferenceError "name is not defined"), initial_world now).
Proof. reflexivity. Qed.

(** C7.  An authentication request naming an unregistered provider type
    yields state ['serverConfigurationError'], which the endpoint's switch
    does not list: the response keeps the status it had, 200 on a fresh
    response.  The add-user endpoint answers the same state with 500. *)
Theorem post_authenticate_unmapped_state_keeps_200 {J : JwtLib}
    (password_module : Provider.t) (secret : string) (now : Z) :
  post_authenticate password_module secret
    (mkRequest None
       (Some (JObj [("name", JStr "admin"); ("auth", JObj [("type", JStr "ldap")])]))
       "" None)
    fresh_response (initial_world now)
  = (Ret (mkResponse 200
            (SentResult
               (Failure "serverConfigurationError"
                  "Invalid authentication type specified for user: ldap"))),
     initial_world now).
Proof. reflexivity. Qed.

(** C8.  The name ['bad name!'] passes the format check, since the pattern
    is not anchored: on the initial store the request fails only at the
    store lookup ("No such user."), and once an identity of that name has
    been added (which the same check allows) validation succeeds. *)
Theorem malformed_name_passes_format_check :
  (forall password_module now,
      validateIdentitySpec password_module (JObj [("name", JStr "bad name!")])
        (Some Options.empty) (initial_world now)
      = (Ret (Failure "requestError" "No such user."), initial_world now))
  /\ (let added :=
        addIdentity ReferencePassword.module_ reference_uuid
          (JObj [ ("name", JStr "bad name!");
                  ("auth", JObj [("type", JStr "password"); ("password", JStr "x")]) ])
          (initial_world 0) in
      option_map state (match fst added with Ret r => Some r | Throw _ => None end)
        = Some "success"
      /\ option_map state
           (match fst (validateIdentitySpec ReferencePassword.module_
                         (JObj [("name", JStr "bad name!")]) (Some Options.empty)
                         (snd added)) with
            | Ret r => Some r
            | Throw _ => None
            end) = Some "success").
Proof. split; [intros; reflexivity|]. vm_compute. split; reflexivity. Qed.

(** C5, the claim as stated fails: a token that [verifyToken] accepts,
    sent as [Bearer <token>], is not attached to the request. *)
Lemma mw_verify_capitalised_Bearer_ignored :
  let payload := newToken_payload 1000 admin_identity None in
  let tok := jwt_sign (JwtLib := ReferenceJwtLaws.lib) payload reference_secret in
  let req := mkRequest (Some ("Bearer " ++ tok)) None "" None in
  fst (verifyToken (J := ReferenceJwtLaws.lib) reference_secret tok (initial_world 2000))
    = Ret (Some payload)
  /\ fst (mw_verify (J := ReferenceJwtLaws.lib) reference_secret req (initial_world 2000))
     = Ret req
  /\ authenticated req = None.
Proof.
  cbv zeta. split; [|split; reflexivity].
  rewrite (verifyToken_signed (J := ReferenceJwtLaws.lib)); reflexivity.
Qed.

(** C5 (as the code has it) at a concrete token. *)
Lemma mw_verify_scheme_is_case_sensitive_witness :
  let payload := newToken_payload 1000 admin_identity None in
  let tok := jwt_sign (JwtLib := ReferenceJwtLaws.lib) payload reference_secret in
  let req := mkRequest None None "" None in
  fst (mw_verify (J := ReferenceJwtLaws.lib) reference_secret
         (with_authorization ("bearer " ++ tok) req) (initial_world 2000))
    = Ret (mkRequest (Some ("bearer " ++ tok)) None "" (Some payload))
  /\ forall scheme,
       String.length scheme = 6%nat -> String.eqb scheme "bearer" = false ->
       fst (mw_verify (J := ReferenceJwtLaws.lib) reference_secret
              (with_authorization (scheme ++ " " ++ tok) req) (initial_world 2000))
         = Ret (with_authorization (scheme ++ " " ++ tok) req).
Proof.
  cbv zeta.
  apply (mw_verify_scheme_is_case_sensitive (J := ReferenceJwtLaws.lib) reference_secret
           (mkRequest None None "" None) (initial_world 2000)).
  - vm_compute. reflexivity.
  - vm_compute. reflexivity.
  - rewrite (verifyToken_signed (J := ReferenceJwtLaws.lib)); reflexivity.
Defined.

(** ** Instances of the further properties *)

Lemma non_string_name_throws_witness :
  let e := TypeError "details.name.match is not a function" in
  (forall options,
      validateIdentitySpec ReferencePassword.module_ (JObj [("name", JNum 5)]) options
        (initial_world 0) = (Throw e, initial_world 0))
  /\ addIdentity ReferencePassword.module_ reference_uuid (JObj [("name", JNum 5)])
       (initial_world 0) = (Throw e, initial_world 0)
  /\ authenticate (J := ReferenceJwtLaws.lib) ReferencePassword.module_ reference_secret
       (JObj [("name", JNum 5)]) (initial_world 0) = (Throw e, initial_world 0)
  /\ removeIdentity ReferencePassword.module_ (Some (JNum 5)) (initial_world 0)
     = (Throw e, initial_world 0).
Proof.
  apply (non_string_name_throws (J := ReferenceJwtLaws.lib) ReferencePassword.module_
           reference_uuid reference_secret (JObj [("name", JNum 5)]) (JNum 5)
           (initial_world 0)).
  - reflexivity.
  - reflexivity.
  - intros s. discriminate.
Defined.

Lemma name_check_rejections_witness :
  (truthy (Some (JStr "!?")) = false ->
   validateIdentitySpec ReferencePassword.module_ (JObj [("name", JStr "!?")]) None
     (initial_world 0)
   = (Ret (Failure "requestError" "No user specified."), initial_world 0))
  /\ (forall nm,
        Some (JStr "!?") = Some (JStr nm) -> String.eqb nm "" = false ->
        existsb word_class (list_ascii_of_string nm) = false ->
        validateIdentitySpec ReferencePassword.module_ (JObj [("name", JStr "!?")]) None
          (initial_world 0)
        = (Ret (Failure "requestError"
                  "Invalid name format (should match regex /[A-z0-9_\-.]+/)."),
           initial_world 0)).
Proof.
  apply (name_check_rejections ReferencePassword.module_ (JObj [("name", JStr "!?")])
           (Some (JStr "!?")) None (initial_world 0)).
  reflexivity.
Defined.

Lemma existence_check_witness :
  (true = true -> true = true ->
   validateIdentitySpec ReferencePassword.module_ admin_only
     (Some (Options.mk true None)) (initial_world 0)
   = (Ret (Failure "requestError" "Identity name already in use."), initial_world 0))
  /\ (true = false -> true = false ->
      validateIdentitySpec ReferencePassword.module_ admin_only
        (Some (Options.mk true None)) (initial_world 0)
      = (Ret (Failure "requestError" "No such user."), initial_world 0)).
Proof.
  apply (existence_check ReferencePassword.module_ admin_only "admin"
           (Some (Options.mk true None)) (initial_world 0)).
  - reflexivity.
  - reflexivity.
Defined.

Lemma functions_elements_unchecked_witness :
  validateIdentitySpec ReferencePassword.module_
    (JObj [("name", JStr "admin");
           ("functions", JArr [JStr "bad name!"; JNum 5; JNull])]) None (initial_world 0)
  = (Ret (Validated
            (Identity.mk None "admin" None
               (Some (JArr [JStr "bad name!"; JNum 5; JNull]))) None),
     initial_world 0).
Proof.
  apply (functions_elements_unchecked ReferencePassword.module_
           (JObj [("name", JStr "admin");
                  ("functions", JArr [JStr "bad name!"; JNum 5; JNull])])
           "admin" [JStr "bad name!"; JNum 5; JNull] (initial_world 0));
    reflexivity.
Defined.

Lemma allow_list_compares_indices_witness :
  let r := fst (validateIdentitySpec ReferencePassword.module_
                  (JObj [("name", JStr "admin"); ("functions", JArr [JStr "admin"])])
                  (Some (Options.mk false (Some ["0"%string]))) (initial_world 0)) in
  (forallb (includes ["0"%string]) (array_keys [JStr "admin"]) = true ->
   r = Ret (Validated (Identity.mk None "admin" None (Some (JArr [JStr "admin"]))) None))
  /\ (forallb (includes ["0"%string]) (array_keys [JStr "admin"]) = false ->
      exists rsn, r = Ret (Failure "requestError" rsn)).
Proof.
  apply (allow_list_compares_indices ReferencePassword.module_
           (JObj [("name", JStr "admin"); ("functions", JArr [JStr "admin"])])
           "admin" [JStr "admin"] ["0"%string] false (initial_world 0));
    reflexivity.
Defined.

Lemma functions_default_and_shape_witness :
  validateIdentitySpec ReferencePassword.module_
    (JObj [("name", JStr "admin"); ("functions", JStr "api")]) None (initial_world 0)
  = (Ret (if truthy (Some (JStr "api"))
          then Failure "requestError" "Functions not specified as an array."
          else Validated (Identity.mk None "admin" None (Some (JArr []))) None),
     initial_world 0).
Proof.
  apply (functions_default_and_shape ReferencePassword.module_
           (JObj [("name", JStr "admin"); ("functions", JStr "api")])
           "admin" (Some (JStr "api")) (initial_world 0)); try reflexivity.
  intros fs. discriminate.
Defined.

Lemma creation_requires_credentials_witness :
  validateIdentitySpec ReferencePassword.module_ (JObj [("name", JStr "x")])
    (Some (Options.mk true None)) (initial_world 0)
  = (Ret (Failure "requestError"
            "No athentication details specified for new identity."), initial_world 0).
Proof.
  apply (creation_requires_credentials ReferencePassword.module_
           (JObj [("name", JStr "x")]) "x" None None (initial_world 0)); reflexivity.
Defined.


Lemma provider_validate_outcome_witness :
  (forall r,
      ReferencePassword.validate (JObj [("type", JStr "password")]) = Ret r ->
      String.eqb (pr_state r) "success" = false ->
      addIdentity ReferencePassword.module_ reference_uuid carol_without_password
        (initial_world 0) = (Ret (FromProvider r), initial_world 0))
  /\ (forall e,
        ReferencePassword.validate (JObj [("type", JStr "password")]) = Throw e ->
        addIdentity ReferencePassword.module_ reference_uuid carol_without_password
          (initial_world 0) = (Throw e, initial_world 0)).
Proof.
  apply (provider_validate_outcome ReferencePassword.module_ reference_uuid
           carol_without_password "carol" (JObj [("type", JStr "password")])
           (Some (JStr "password")) ReferencePassword.module_
           ReferencePassword.validate ReferencePassword.commit (initial_world 0));
    reflexivity.
Defined.

Lemma addIdentity_success_record_witness :
  exists record a ty at_ validate commit rv rc,
    IdentityResult
      (Identity.mk (Some "uuid-0") "bob"
         (Some (JObj [("type", JStr "password"); ("password", JStr "x")]))
         (Some (JArr [JStr "api"])))
      = IdentityResult record
    /\ snd (addIdentity ReferencePassword.module_ reference_uuid bob_details (initial_world 0))
       = mkWorld (identities (initial_world 0) ++ [record])
           (S (uuids_drawn (initial_world 0))) (clock (initial_world 0))
    /\ Identity.id record = Some (reference_uuid (uuids_drawn (initial_world 0)))
    /\ member (Some bob_details) "name" = Ret (Some (JStr (Identity.name record)))
    /\ occurrences (Identity.name record) (identities (initial_world 0)) = 0%nat
    /\ member (Some bob_details) "auth" = Ret (Some a)
    /\ member (Some a) "type" = Ret ty
    /\ authTypes ReferencePassword.module_ ty = Some at_
    /\ Provider.validate at_ = Some validate
    /\ Provider.commit at_ = Some commit
    /\ validate a = Ret rv
    /\ commit (pr_cleanRecord rv) = Ret rc
    /\ Identity.auth record = pr_commitRecord rc.
Proof.
  apply (addIdentity_success_record ReferencePassword.module_ reference_uuid
           bob_details (initial_world 0)).
  - vm_compute. reflexivity.
  - reflexivity.
Defined.

Lemma removeIdentity_by_name_witness :
  let present :=
    existsb (fun o => String.eqb (Identity.name o) "admin") (identities (initial_world 0)) in
  let after :=
    snd (removeIdentity ReferencePassword.module_ (Some (JStr "admin")) (initial_world 0)) in
  (present = false ->
   removeIdentity ReferencePassword.module_ (Some (JStr "admin")) (initial_world 0)
   = (Ret (Failure "requestError" "No such user."), initial_world 0))
  /\ (present = true ->
      fst (removeIdentity ReferencePassword.module_ (Some (JStr "admin")) (initial_world 0))
        = Ret Success
      /\ S (occurrences "admin" (identities after))
         = occurrences "admin" (identities (initial_world 0))
      /\ (forall n, n <> "admin" ->
            occurrences n (identities after) = occurrences n (identities (initial_world 0)))
      /\ S (List.length (identities after)) = List.length (identities (initial_world 0))).
Proof.
  apply (removeIdentity_by_name ReferencePassword.module_ "admin" (initial_world 0)).
  reflexivity.
Defined.

Lemma authenticate_token_for_stored_identity_witness :
  exists r t,
    fst (authenticate (J := ReferenceJwtLaws.lib) ReferencePassword.module_ reference_secret
           admin_login (initial_world 1000)) = Ret r
    /\ token r = Some t
    /\ state r = "success"
    /\ exists identity_,
         In identity_ (identities (initial_world 1000))
         /\ member (Some admin_login) "name" = Ret (Some (JStr (Identity.name identity_)))
         /\ t = jwt_sign (JwtLib := ReferenceJwtLaws.lib)
                  (newToken_payload (clock (initial_world 1000)) identity_ None)
                  reference_secret
         /\ fst (verifyToken (J := ReferenceJwtLaws.lib) reference_secret t (initial_world 1000))
            = Ret (Some (newToken_payload (clock (initial_world 1000)) identity_ None)).
Proof.
  eexists _, _. split; [|split]; cycle 2.
  - apply (authenticate_token_for_stored_identity (J := ReferenceJwtLaws.lib)
             ReferencePassword.module_ reference_secret admin_login (initial_world 1000)).
    + reflexivity.
    + reflexivity.
  - reflexivity.
  - reflexivity.
Defined.

Lemma post_authenticate_unknown_user_witness :
  post_authenticate (J := ReferenceJwtLaws.lib) ReferencePassword.module_ reference_secret
    (mkRequest None (Some (JObj [("name", JStr "mallory")])) "" None)
    fresh_response (initial_world 0)
  = (Ret (mkResponse 400 (SentResult (Failure "requestError" "No such user."))),
     initial_world 0).
Proof.
  apply (post_authenticate_unknown_user (J := ReferenceJwtLaws.lib) ReferencePassword.module_
           reference_secret None "" None (JObj [("name", JStr "mallory")]) "mallory"
           fresh_response (initial_world 0)); reflexivity.
Defined.

Lemma authenticate_follows_provider_witness :
  let wrong :=
    JObj [ ("name", JStr "admin");
           ("auth", JObj [("type", JStr "password"); ("password", JStr "guess")]) ] in
  let pr := mkPresult "failed" (Some "Authentication failed.") None None in
  authenticate (J := ReferenceJwtLaws.lib) ReferencePassword.module_ reference_secret wrong
    (initial_world 1000) = (Ret (FromProvider pr), initial_world 1000)
  /\ fst (post_authenticate (J := ReferenceJwtLaws.lib) ReferencePassword.module_
            reference_secret (mkRequest None (Some wrong) "" None) fresh_response
            (initial_world 1000))
     = Ret (mkResponse 403 (SentResult (FromProvider pr))).
Proof.
  cbv zeta.
  destruct (authenticate_follows_provider (J := ReferenceJwtLaws.lib)
              ReferencePassword.module_ reference_secret
              (JObj [ ("name", JStr "admin");
                      ("auth", JObj [("type", JStr "password"); ("password", JStr "guess")]) ])
              (initial_world 1000)
              (Identity.mk None "admin"
                 (Some (JObj [("type", JStr "password"); ("password", JStr "guess")]))
                 (Some (JArr [])))
              (Some ReferencePassword.module_)
              (match initial_identities with x :: _ => x | [] => admin_identity end)
              (Some (JStr "password")) ReferencePassword.module_
              ReferencePassword.authenticate
              (mkPresult "failed" (Some "Authentication failed.") None None)
              None "" None
              eq_refl eq_refl eq_refl eq_refl eq_refl eq_refl) as (E1 & E2).
  split; [exact E1|]. apply E2. vm_compute. reflexivity.
Defined.
